(** * deeplab2 [trainer/vis.py]: storing panoptic-deeplab predictions

    A shallow embedding of the prediction-to-artifact code of
    [trainer/vis.py] and the proofs of its specification.

    Conventions.
    - A numpy integer array of shape [H, W] is a [list (list Z)] (rows of
      pixels); one of shape [H, W, C] is a [list (list (list Z))].  The
      operations of the module on such arrays ([//] and [%] by a divisor that
      is not -1, comparison, table lookup with entries below 34,
      multiplication by a 0/1 mask) stay inside the array's integer dtype, so
      elements are mathematical integers; the one explicit narrowing,
      [astype(np.uint8)], is written out as reduction modulo 256.
    - A Python exception is a value of [exn]; a computation that may raise
      returns an [outcome].
    - Writing to the file system ([vis_utils.save_annotation], [np.save],
      [tf.io.gfile.makedirs], [vis_utils.save_parsing_result]) is recorded as
      an [event] carrying the arguments of the call; a procedure is a value of
      [io]: the events it emitted, in order, and how it ended. *)

From Stdlib Require Import ZArith Lia Bool.
From stdpp Require Import base numbers list strings pretty gmap.

Local Open Scope Z_scope.

(** ** Exceptions and outcomes *)

Inductive exn : Type :=
| KeyError (key : string)
| IndexError (index size : Z)
| ValueError_unsupported_dataset (dataset_name : string)
| ValueError_overflow_semantic
| ValueError_overflow_instance (limit : Z)
| ValueError_unknown_format (raw_panoptic_format : string)
| ValueError_zero_size_reduction
| ValueError_broadcast
| Unmodelled_rank.

Inductive outcome (A : Type) : Type :=
| Returns (a : A)
| Raises (e : exn).
Arguments Returns {A} a.
Arguments Raises {A} e.

Definition obind {A B} (m : outcome A) (k : A -> outcome B) : outcome B :=
  match m with
  | Returns a => k a
  | Raises e => Raises e
  end.

Fixpoint omap {A B} (f : A -> outcome B) (l : list A) : outcome (list B) :=
  match l with
  | [] => Returns []
  | x :: l' =>
      obind (f x) (fun y => obind (omap f l') (fun ys => Returns (y :: ys)))
  end.

(** The two [ValueError]s documented as overflow errors. *)
Definition is_overflow (e : exn) : bool :=
  match e with
  | ValueError_overflow_semantic | ValueError_overflow_instance _ => true
  | _ => false
  end.

Definition is_unknown_format (e : exn) : bool :=
  match e with
  | ValueError_unknown_format _ => true
  | _ => false
  end.

Definition is_ValueError (e : exn) : bool :=
  match e with
  | ValueError_unsupported_dataset _ | ValueError_overflow_semantic
  | ValueError_overflow_instance _ | ValueError_unknown_format _
  | ValueError_zero_size_reduction | ValueError_broadcast => true
  | _ => false
  end.

(** ** numpy arrays *)

Definition array2 : Type := list (list Z).
Definition array3 : Type := list (list (list Z)).

Inductive ndarray : Type :=
| Arr2 (a : array2)
| Arr3 (a : array3).

Definition map2 {A B} (f : A -> B) : list (list A) -> list (list B) :=
  map (map f).

Definition omap2 {A B} (f : A -> outcome B)
  : list (list A) -> outcome (list (list B)) :=
  omap (omap f).

(** [a[r, c]] for an in-range position. *)
Definition pixel {A} (a : list (list A)) (r c : nat) : option A :=
  match a !! r with
  | Some row => row !! c
  | None => None
  end.

(** [a.shape[:2]]. *)
Definition shape2 {A} (a : list (list A)) : nat * nat :=
  (length a, length (hd [] a)).

(** Every row has the width of the first one: what makes a list of rows an
    array. *)
Definition rectangular {A} (a : list (list A)) : Prop :=
  Forall (fun row => length row = snd (shape2 a)) a.

(** [np.zeros((h, w, c))]. *)
Definition np_zeros3 (h w c : nat) : array3 :=
  replicate h (replicate w (replicate c 0)).

(** [x // d] and [x % d] on integer arrays: floor division and the
    remainder with the sign of the divisor; numpy yields 0 for both when the
    divisor is 0.  For a divisor other than -1 the results fit the dtype of
    the array and are those of the integers; the least value of a fixed-width
    dtype divided by -1 wraps to the least value, which the integers here do
    not follow. *)
Definition np_floor_divide (x d : Z) : Z := if d =? 0 then 0 else x / d.
Definition np_remainder (x d : Z) : Z := if d =? 0 then 0 else x mod d.

(** [np.max(a)]: the largest element; raises on an array without elements. *)
Definition np_max (a : array2) : outcome Z :=
  match concat a with
  | [] => Raises ValueError_zero_size_reduction
  | x :: xs => Returns (foldl Z.max x xs)
  end.

(** [table[i]] for one integer index: a negative index counts from the end,
    an index outside [-size, size) raises. *)
Definition np_getitem (table : list Z) (i : Z) : outcome Z :=
  let size := Z.of_nat (length table) in
  if (0 <=? i) && (i <? size) then Returns (nth (Z.to_nat i) table 0)
  else if (- size <=? i) && (i <? 0) then
    Returns (nth (Z.to_nat (size + i)) table 0)
  else Raises (IndexError i size).

(** [out[:, :, k] = src] for [src] of the shape of the first two axes of
    [out]; in [store_raw_predictions] the source is computed elementwise from
    the map whose shape gave [out], so the shapes agree. *)
Definition set_channel (k : nat) (src : array2) (out : array3) : array3 :=
  zip_with (zip_with (fun v px => <[k:=v]> px)) src out.

(** [a[:, :, k]]. *)
Definition channel (k : nat) (a : array3) : array2 :=
  map2 (fun px => nth k px 0) a.

(** ** Conversion from train id to eval id *)

Definition _CITYSCAPES_TRAIN_ID_TO_EVAL_ID : list Z :=
  [7; 8; 11; 12; 13; 17; 19; 20; 21; 22; 23; 24; 25; 26; 27; 28; 31; 32; 33; 0].

(** The table built by the first four statements of
    [_convert_cityscapes_train_id_to_eval_id]: [length] zeros whose first
    [len(_CITYSCAPES_TRAIN_ID_TO_EVAL_ID)] entries are overwritten. *)
Definition to_eval_id_map : list Z :=
  let length_ :=
    Z.max 256 (Z.of_nat (length _CITYSCAPES_TRAIN_ID_TO_EVAL_ID)) in
  let zeros := replicate (Z.to_nat length_) 0 in
  _CITYSCAPES_TRAIN_ID_TO_EVAL_ID
    ++ drop (length _CITYSCAPES_TRAIN_ID_TO_EVAL_ID) zeros.

(** [to_eval_id_map[prediction]]: every element indexes the table. *)
Definition _convert_cityscapes_train_id_to_eval_id (prediction : array2)
  : outcome array2 :=
  omap2 (np_getitem to_eval_id_map) prediction.

(** ** Decoding a panoptic map (lines 172-178 of [store_raw_predictions]) *)

Definition predicted_semantic_labels (convert_to_eval : bool)
  (panoptic_prediction : array2) (panoptic_label_divisor : Z)
  : outcome array2 :=
  let labels :=
    map2 (fun x => np_floor_divide x panoptic_label_divisor)
      panoptic_prediction in
  if convert_to_eval then _convert_cityscapes_train_id_to_eval_id labels
  else Returns labels.

Definition predicted_instance_labels (panoptic_prediction : array2)
  (panoptic_label_divisor : Z) : array2 :=
  map2 (fun x => np_remainder x panoptic_label_divisor) panoptic_prediction.

(** ** Recorded effects and procedures *)

Inductive event : Type :=
| makedirs (path : string)
| save_annotation (label : ndarray) (save_dir filename : string)
    (add_colormap : bool) (colormap_name : option string)
| np_save (path : string) (arr : ndarray)
| save_parsing_result (parsing_result : ndarray) (label_divisor : Z)
    (thing_list : list Z) (save_dir filename colormap_name : string).

Definition io (A : Type) : Type := list event * outcome A.

Definition ret {A} (a : A) : io A := ([], Returns a).
Definition raise {A} (e : exn) : io A := ([], Raises e).
Definition emit (ev : event) : io unit := ([ev], Returns tt).
Definition lift {A} (m : outcome A) : io A := ([], m).

Definition bind {A B} (m : io A) (k : A -> io B) : io B :=
  match m with
  | (tr, Returns a) => let (tr', r) := k a in (tr ++ tr', r)
  | (tr, Raises e) => (tr, Raises e)
  end.

Notation "'let*' x ':=' m 'in' k" := (bind m (fun x => k))
  (at level 10, x name, m at level 100, k at level 200).
Notation "m '>>' k" := (bind m (fun _ => k))
  (at level 100, k at level 200, right associativity).

Definition trace {A} (m : io A) : list event := fst m.
Definition result {A} (m : io A) : outcome A := snd m.

Definition raises_with {A} (p : exn -> bool) (m : io A) : Prop :=
  exists e, result m = Raises e /\ p e = true.

(** ** The collaborators of the module *)

(** [dataset.DatasetDescriptor], the fields read here. *)
Record DatasetDescriptor : Type := {
  dataset_name : string;
  is_video_dataset : bool;
  panoptic_label_divisor : Z;
  ignore_label : Z;
  class_has_instances_list : list Z;
  colormap : string
}.

(** The dictionary keys of [deeplab2.common]. *)
Class Common : Type := {
  TARGET_SEMANTIC_KEY : string;
  TARGET_PANOPTIC_KEY : string;
  TARGET_CENTER_HEATMAP_KEY : string;
  TARGET_OFFSET_MAP_KEY : string;
  TARGET_INSTANCE_KEY : string;
  IMAGE : string;
  IMAGE_NAME : string;
  GT_SEMANTIC_KEY : string;
  GT_SEMANTIC_RAW : string;
  GT_PANOPTIC_RAW : string;
  GT_INSTANCE_CENTER_KEY : string;
  GT_INSTANCE_REGRESSION_KEY : string
}.

(** [os.path.join] of two components, the first component of
    [os.path.splitext], and ['%06d' % n]. *)
Class OsPath : Type := {
  path_join : string -> string -> string;
  splitext_root : string -> string;
  format_06d : Z -> string
}.

(** The pure renderers of [deeplab2.trainer.vis_utils]. *)
Class VisUtils : Type := {
  overlay_heatmap_on_image : ndarray -> ndarray -> ndarray;
  flow_to_color : array3 -> array3;
  create_rgb_from_instance_map : ndarray -> ndarray
}.

(** [sub in s] on strings. *)
Fixpoint str_contains (sub s : string) : bool :=
  if String.prefix sub s then true
  else match s with
       | EmptyString => false
       | String _ s' => str_contains sub s'
       end.

(** [d[key]] on a dictionary. *)
Definition dict_getitem (d : gmap string ndarray) (key : string)
  : outcome ndarray :=
  match d !! key with
  | Some v => Returns v
  | None => Raises (KeyError key)
  end.

(** The label maps of a bundle (semantic, panoptic, ground truth) are of
    shape [H, W] and the offset fields of shape [H, W, 2]: that is how the
    module reads them.  An entry of the other rank under such a key is outside
    the modelled inputs and ends the run with [Unmodelled_rank]. *)
Definition label_map (a : ndarray) : outcome array2 :=
  match a with
  | Arr2 m => Returns m
  | Arr3 _ => Raises Unmodelled_rank
  end.

Definition feature_map (a : ndarray) : outcome array3 :=
  match a with
  | Arr3 m => Returns m
  | Arr2 _ => Raises Unmodelled_rank
  end.

Section StoreRawPredictions.
Context `{Common} `{OsPath}.

(** [os.path.join(save_dir, kind)], extended by the sequence for a video
    dataset, in which case the folder is created. *)
Definition output_folder_for (dataset_info : DatasetDescriptor)
  (save_dir kind sequence : string) : io string :=
  let output_folder := path_join save_dir kind in
  if is_video_dataset dataset_info then
    let output_folder := path_join output_folder sequence in
    emit (makedirs output_folder) >> ret output_folder
  else ret output_folder.

(** The three formats and the fall-through of lines 184-223. *)
Definition store_raw_panoptic (raw_panoptic_format : string)
  (panoptic_outputs : array3) (semantic_labels instance_labels : array2)
  (output_folder image_filename : string) : io unit :=
  if String.eqb raw_panoptic_format "two_channel_png" then
    let* m := lift (np_max semantic_labels) in
    if 255 <? m then raise ValueError_overflow_semantic else
    let* m := lift (np_max instance_labels) in
    if 255 <? m then raise (ValueError_overflow_instance 255) else
    let panoptic_outputs := set_channel 0 semantic_labels panoptic_outputs in
    let panoptic_outputs := set_channel 1 instance_labels panoptic_outputs in
    emit (save_annotation (Arr3 panoptic_outputs) output_folder
            image_filename false None)
  else if String.eqb raw_panoptic_format "three_channel_png" then
    let* m := lift (np_max semantic_labels) in
    if 255 <? m then raise ValueError_overflow_semantic else
    let* m := lift (np_max instance_labels) in
    if 65535 <? m then raise (ValueError_overflow_instance 65535) else
    let panoptic_outputs := set_channel 0 semantic_labels panoptic_outputs in
    let panoptic_outputs :=
      set_channel 1 (map2 (fun x => np_floor_divide x 256) instance_labels)
        panoptic_outputs in
    let panoptic_outputs :=
      set_channel 2 (map2 (fun x => np_remainder x 256) instance_labels)
        panoptic_outputs in
    emit (save_annotation (Arr3 panoptic_outputs) output_folder
            image_filename false None)
  else if String.eqb raw_panoptic_format "two_channel_numpy_array" then
    let panoptic_outputs := set_channel 0 semantic_labels panoptic_outputs in
    let panoptic_outputs := set_channel 1 instance_labels panoptic_outputs in
    emit (np_save (path_join output_folder (image_filename +:+ ".npy"))
            (Arr3 panoptic_outputs))
  else raise (ValueError_unknown_format raw_panoptic_format).

(** [predictions] is the bundle after lines 138-139: one numpy array per
    key. [image_filename] and [sequence] are the decoded strings. *)
Definition store_raw_predictions (predictions : gmap string ndarray)
  (image_filename : string) (dataset_info : DatasetDescriptor)
  (save_dir sequence raw_panoptic_format : string)
  (convert_to_eval : bool) : io unit :=
  let image_filename := splitext_root image_filename in
  (* Store raw semantic prediction. *)
  let* semantic_prediction :=
    lift (obind (dict_getitem predictions TARGET_SEMANTIC_KEY) label_map) in
  let* semantic_prediction :=
    if convert_to_eval then
      if str_contains "cityscapes" (dataset_name dataset_info) then
        lift (_convert_cityscapes_train_id_to_eval_id semantic_prediction)
      else
        raise (ValueError_unsupported_dataset (dataset_name dataset_info))
    else ret semantic_prediction in
  let* output_folder :=
    output_folder_for dataset_info save_dir "raw_semantic" sequence in
  emit (save_annotation (Arr2 semantic_prediction) output_folder
          image_filename false None) >>
  match predictions !! TARGET_PANOPTIC_KEY with
  | None => ret tt
  | Some panoptic_prediction =>
      let* panoptic_prediction := lift (label_map panoptic_prediction) in
      let panoptic_outputs :=
        np_zeros3 (fst (shape2 panoptic_prediction))
          (snd (shape2 panoptic_prediction)) 3 in
      let* semantic_labels :=
        lift (predicted_semantic_labels convert_to_eval panoptic_prediction
                (panoptic_label_divisor dataset_info)) in
      let instance_labels :=
        predicted_instance_labels panoptic_prediction
          (panoptic_label_divisor dataset_info) in
      let* output_folder :=
        output_folder_for dataset_info save_dir "raw_panoptic" sequence in
      store_raw_panoptic raw_panoptic_format panoptic_outputs
        semantic_labels instance_labels output_folder image_filename
  end.

End StoreRawPredictions.

(** ** Foreground mask and broadcasting *)

(** [tensor_to_crop[:h, :w, ...]] with [h, w = crop_to_tensor.shape[:2]]. *)
Definition _crop_like {A B} (tensor_to_crop : list (list A))
  (crop_to_tensor : list (list B)) : list (list A) :=
  let '(h, w) := shape2 crop_to_tensor in
  take h (map (take w) tensor_to_crop).

(** [np.unique]: the distinct elements, sorted. *)
Fixpoint insert_unique (x : Z) (l : list Z) : list Z :=
  match l with
  | [] => [x]
  | y :: l' =>
      if x <? y then x :: l
      else if x =? y then l
      else y :: insert_unique x l'
  end.

Definition np_unique (a : array2) : list Z :=
  foldr insert_unique [] (concat a).

(** [class_id in thing_list]. *)
Definition py_in (class_id : Z) (thing_list : list Z) : bool :=
  existsb (Z.eqb class_id) thing_list.

Definition np_logical_or (a b : list (list bool)) : list (list bool) :=
  zip_with (zip_with orb) a b.

Definition _get_fg_mask (label_map : array2) (thing_list : list Z) : array3 :=
  let fg_mask := map2 (fun _ => false) label_map in
  let fg_mask :=
    foldl (fun fg_mask class_id =>
             if py_in class_id thing_list then
               np_logical_or fg_mask (map2 (fun x => x =? class_id) label_map)
             else fg_mask)
      fg_mask (np_unique label_map) in
  (* expand_dims(axis=2), then astype(int) *)
  map2 (fun b : bool => [if b then 1 else 0]) fg_mask.

(** One axis of numpy broadcasting: equal lengths pair up, a length of one
    is stretched, anything else raises. *)
Definition broadcast {A B C} (f : A -> B -> outcome C)
  (xs : list A) (ys : list B) : outcome (list C) :=
  if (length xs =? length ys)%nat then
    omap (fun xy => f (fst xy) (snd xy)) (zip xs ys)
  else match xs, ys with
       | [x], _ => omap (f x) ys
       | _, [y] => omap (fun x => f x y) xs
       | _, _ => Raises ValueError_broadcast
       end.

(** [a * b] on arrays of three axes. *)
Definition np_multiply (a b : array3) : outcome array3 :=
  broadcast (broadcast (broadcast (fun x y => Returns (x * y)))) a b.

(** [a.astype(np.uint8)] on an integer. *)
Definition astype_uint8 (x : Z) : Z := x mod 256.

(** Lines 328-331: [label] is the raw ground truth narrowed to uint8, the two
    comparisons are by value, and the product with 255 is taken in uint8.
    On the numpy the module runs on (it uses [np.bool] and [np.int]), [!=]
    between arrays that cannot be broadcast does not raise: it yields the
    scalar [True], and [True & mask] is the mask. *)
Definition error_prediction (semantic_prediction gt_semantic_raw : array2)
  (ignore_label : Z) : outcome array2 :=
  let label := map2 astype_uint8 gt_semantic_raw in
  let not_ignored := map2 (fun l => negb (l =? ignore_label)) label in
  obind
    (match broadcast (broadcast (fun p l => Returns (negb (p =? l))))
             semantic_prediction label with
     | Returns differs =>
         broadcast (broadcast (fun a b : bool => Returns (a && b)))
           differs not_ignored
     | Raises _ => Returns not_ignored
     end)
    (fun mask =>
       Returns
         (map2 (fun b : bool =>
                  astype_uint8 (astype_uint8 (if b then 1 else 0) * 255))
            mask)).

Section StorePredictions.
Context `{Common} `{OsPath} `{VisUtils}.

Definition _IMAGE_FORMAT n := format_06d n +:+ "_image".
Definition _CENTER_LABEL_FORMAT n := format_06d n +:+ "_center_label".
Definition _OFFSET_LABEL_FORMAT n := format_06d n +:+ "_offset_label".
Definition _PANOPTIC_LABEL_FORMAT n := format_06d n +:+ "_panoptic_label".
Definition _SEMANTIC_LABEL_FORMAT n := format_06d n +:+ "_semantic_label".
Definition _INSTANCE_PREDICTION_FORMAT n :=
  format_06d n +:+ "_instance_prediction".
Definition _CENTER_HEATMAP_PREDICTION_FORMAT n :=
  format_06d n +:+ "_center_prediction".
Definition _OFFSET_PREDICTION_RGB_FORMAT n :=
  format_06d n +:+ "_offset_prediction_rgb".
Definition _PANOPTIC_PREDICTION_FORMAT n :=
  format_06d n +:+ "_panoptic_prediction".
Definition _SEMANTIC_PREDICTION_FORMAT n :=
  format_06d n +:+ "_semantic_prediction".
Definition _ANALYSIS_FORMAT n := format_06d n +:+ "_semantic_error".

(** Step 4 for one offset field: rendered as a flow image and multiplied
    by the foreground mask of [semantic]. *)
Definition masked_offset_rgb (center_offset : array3) (semantic : array2)
  (thing_list : list Z) : outcome array3 :=
  let center_offset_rgb := flow_to_color center_offset in
  let fg_mask := _get_fg_mask semantic thing_list in
  np_multiply center_offset_rgb fg_mask.

(** Steps 3 to 6, run when the bundle has a panoptic prediction. *)
Definition store_panoptic_predictions (predictions inputs : gmap string ndarray)
  (image_id : Z) (dataset_info : DatasetDescriptor) (save_dir : string)
  : io unit :=
  let thing_list := class_has_instances_list dataset_info in
  let label_divisor := panoptic_label_divisor dataset_info in
  let colormap_name := colormap dataset_info in
  (* 3. Save center heatmap. *)
  let* heatmap := lift (dict_getitem predictions TARGET_CENTER_HEATMAP_KEY) in
  let* image := lift (dict_getitem inputs IMAGE) in
  emit (save_annotation (overlay_heatmap_on_image heatmap image) save_dir
          (_CENTER_HEATMAP_PREDICTION_FORMAT image_id) false None) >>
  let* center := lift (dict_getitem inputs GT_INSTANCE_CENTER_KEY) in
  let* image := lift (dict_getitem inputs IMAGE) in
  emit (save_annotation (overlay_heatmap_on_image center image) save_dir
          (_CENTER_LABEL_FORMAT image_id) false None) >>
  (* 4. Save center offsets. *)
  let* offset_map :=
    lift (obind (dict_getitem predictions TARGET_OFFSET_MAP_KEY)
            feature_map) in
  let* semantic_prediction :=
    lift (obind (dict_getitem predictions TARGET_SEMANTIC_KEY) label_map) in
  let center_offset_prediction := _crop_like offset_map semantic_prediction in
  let* center_offset_prediction_rgb :=
    lift (masked_offset_rgb center_offset_prediction semantic_prediction
            thing_list) in
  emit (save_annotation (Arr3 center_offset_prediction_rgb) save_dir
          (_OFFSET_PREDICTION_RGB_FORMAT image_id) false None) >>
  let* center_offset_label :=
    lift (obind (dict_getitem inputs GT_INSTANCE_REGRESSION_KEY)
            feature_map) in
  let* gt_semantic :=
    lift (obind (dict_getitem inputs GT_SEMANTIC_KEY) label_map) in
  let* center_offset_label_rgb :=
    lift (masked_offset_rgb center_offset_label gt_semantic thing_list) in
  emit (save_annotation (Arr3 center_offset_label_rgb) save_dir
          (_OFFSET_LABEL_FORMAT image_id) false None) >>
  (* 5. Save instance map. *)
  let* instance := lift (dict_getitem predictions TARGET_INSTANCE_KEY) in
  emit (save_annotation (create_rgb_from_instance_map instance) save_dir
          (_INSTANCE_PREDICTION_FORMAT image_id) false None) >>
  (* 6. Save panoptic segmentation. *)
  let* panoptic := lift (dict_getitem predictions TARGET_PANOPTIC_KEY) in
  emit (save_parsing_result panoptic label_divisor thing_list save_dir
          (_PANOPTIC_PREDICTION_FORMAT image_id) colormap_name) >>
  let* panoptic_raw := lift (dict_getitem inputs GT_PANOPTIC_RAW) in
  emit (save_parsing_result panoptic_raw label_divisor thing_list save_dir
          (_PANOPTIC_LABEL_FORMAT image_id) colormap_name).

(** [predictions] and [inputs] are the bundles after lines 230-234: one
    numpy array per key, the image name removed. *)
Definition store_predictions (predictions inputs : gmap string ndarray)
  (image_id : Z) (dataset_info : DatasetDescriptor) (save_dir : string)
  : io unit :=
  let colormap_name := colormap dataset_info in
  (* 1. Save image. *)
  let* image := lift (dict_getitem inputs IMAGE) in
  emit (save_annotation image save_dir (_IMAGE_FORMAT image_id) false None) >>
  (* 2. Save semantic predictions and semantic labels. *)
  let* semantic := lift (dict_getitem predictions TARGET_SEMANTIC_KEY) in
  emit (save_annotation semantic save_dir
          (_SEMANTIC_PREDICTION_FORMAT image_id) true (Some colormap_name)) >>
  let* semantic_raw := lift (dict_getitem inputs GT_SEMANTIC_RAW) in
  emit (save_annotation semantic_raw save_dir
          (_SEMANTIC_LABEL_FORMAT image_id) true (Some colormap_name)) >>
  (match predictions !! TARGET_PANOPTIC_KEY with
   | Some _ =>
       store_panoptic_predictions predictions inputs image_id dataset_info
         save_dir
   | None => ret tt
   end) >>
  (* 7. Save error of semantic prediction. *)
  let* gt_semantic_raw :=
    lift (obind (dict_getitem inputs GT_SEMANTIC_RAW) label_map) in
  let* semantic_prediction :=
    lift (obind (dict_getitem predictions TARGET_SEMANTIC_KEY) label_map) in
  let* error :=
    lift (error_prediction semantic_prediction gt_semantic_raw
            (ignore_label dataset_info)) in
  emit (save_annotation (Arr2 error) save_dir (_ANALYSIS_FORMAT image_id)
          false None).

End StorePredictions.

(** ** A concrete environment, for running the model *)

Module Sample.

#[export] Instance common : Common := {|
  TARGET_SEMANTIC_KEY := "semantic_pred";
  TARGET_PANOPTIC_KEY := "panoptic_pred";
  TARGET_CENTER_HEATMAP_KEY := "center_heatmap";
  TARGET_OFFSET_MAP_KEY := "offset_map";
  TARGET_INSTANCE_KEY := "instance_pred";
  IMAGE := "image";
  IMAGE_NAME := "image_name";
  GT_SEMANTIC_KEY := "semantic_target";
  GT_SEMANTIC_RAW := "semantic_raw";
  GT_PANOPTIC_RAW := "panoptic_raw";
  GT_INSTANCE_CENTER_KEY := "center_target";
  GT_INSTANCE_REGRESSION_KEY := "offset_target"
|}.

(** Paths without a trailing separator, file names without an extension,
    image ids of one digit. *)
#[export] Instance os_path : OsPath := {|
  path_join a b := a +:+ "/" +:+ b;
  splitext_root s := s;
  format_06d n := "00000" +:+ pretty n
|}.

(** Renderers that keep the shape: identity on the image, the flow field
    padded to three channels. *)
#[export] Instance vis_utils : VisUtils := {|
  overlay_heatmap_on_image _ image := image;
  flow_to_color flow := map2 (fun px => take 3 (px ++ [0; 0; 0])) flow;
  create_rgb_from_instance_map m := m
|}.

Definition cityscapes : DatasetDescriptor := {|
  dataset_name := "cityscapes_panoptic";
  is_video_dataset := false;
  panoptic_label_divisor := 1000;
  ignore_label := 255;
  class_has_instances_list := [11; 12; 13; 14; 15; 16; 17; 18];
  colormap := "cityscapes"
|}.

Definition coco : DatasetDescriptor := {|
  dataset_name := "coco_panoptic";
  is_video_dataset := false;
  panoptic_label_divisor := 256;
  ignore_label := 0;
  class_has_instances_list := [1; 2; 3];
  colormap := "coco"
|}.

(** A 1 x 2 bundle: pixels (semantic 11, instance 3) and (semantic 0,
    instance 0). *)
Definition predictions : gmap string ndarray :=
  <[TARGET_PANOPTIC_KEY := Arr2 [[11003; 0]]]>
    (<[TARGET_SEMANTIC_KEY := Arr2 [[11; 0]]]> ∅).

Definition semantic_only : gmap string ndarray :=
  <[TARGET_SEMANTIC_KEY := Arr2 [[11; 0]]]> ∅.

(** The inputs of the same image: ground truth 12 and the ignore label. *)
Definition inputs : gmap string ndarray :=
  <[GT_SEMANTIC_RAW := Arr2 [[12; 255]]]>
    (<[IMAGE := Arr3 [[[1; 2; 3]; [4; 5; 6]]]]> ∅).

Definition kitti_step : DatasetDescriptor := {|
  dataset_name := "kitti_step";
  is_video_dataset := true;
  panoptic_label_divisor := 100000;
  ignore_label := 255;
  class_has_instances_list := [11; 13];
  colormap := "cityscapes"
|}.

(** The same image with every entry the panoptic steps read. *)
Definition full_predictions : gmap string ndarray :=
  <[TARGET_CENTER_HEATMAP_KEY := Arr3 [[[1]; [0]]]]>
    (<[TARGET_OFFSET_MAP_KEY := Arr3 [[[5; 6]; [7; 8]]]]>
       (<[TARGET_INSTANCE_KEY := Arr2 [[3; 0]]]> predictions)).

Definition full_inputs : gmap string ndarray :=
  <[GT_INSTANCE_CENTER_KEY := Arr3 [[[0]; [1]]]]>
    (<[GT_INSTANCE_REGRESSION_KEY := Arr3 [[[1; 1]; [2; 2]]]]>
       (<[GT_SEMANTIC_KEY := Arr2 [[12; 255]]]>
          (<[GT_PANOPTIC_RAW := Arr2 [[12001; 255000]]]> inputs))).

End Sample.

(** ** Notions used in the statements *)

(** The table entry at a non-negative index. *)
Definition table_entry (v : Z) : Z := nth (Z.to_nat v) to_eval_id_map 0.

(** What lines 144-152 of [store_raw_predictions] leave in
    [semantic_prediction]. *)
Definition semantic_to_store (convert_to_eval : bool)
  (dataset_info : DatasetDescriptor) (semantic_prediction : array2)
  : outcome array2 :=
  if convert_to_eval then
    if str_contains "cityscapes" (dataset_name dataset_info) then
      _convert_cityscapes_train_id_to_eval_id semantic_prediction
    else Raises (ValueError_unsupported_dataset (dataset_name dataset_info))
  else Returns semantic_prediction.

(** The folder [output_folder_for] returns and the events it emits. *)
Definition output_folder `{OsPath} (dataset_info : DatasetDescriptor)
  (save_dir kind sequence : string) : string :=
  if is_video_dataset dataset_info then
    path_join (path_join save_dir kind) sequence
  else path_join save_dir kind.

Definition output_folder_events `{OsPath} (dataset_info : DatasetDescriptor)
  (save_dir kind sequence : string) : list event :=
  if is_video_dataset dataset_info then
    [makedirs (output_folder dataset_info save_dir kind sequence)]
  else [].

(** The events of storing the raw semantic prediction [stored]. *)
Definition raw_semantic_events `{OsPath} (dataset_info : DatasetDescriptor)
  (save_dir sequence image_filename : string) (stored : array2) : list event :=
  output_folder_events dataset_info save_dir "raw_semantic" sequence
    ++ [save_annotation (Arr2 stored)
          (output_folder dataset_info save_dir "raw_semantic" sequence)
          (splitext_root image_filename) false None].

(** Two arrays agree on their first two axes. *)
Definition same_shape {A B} (a : list (list A)) (b : list (list B)) : Prop :=
  Forall2 (fun row_a row_b => length row_a = length row_b) a b.

(** The events that write a file. *)
Definition is_artifact (ev : event) : bool :=
  match ev with
  | makedirs _ => false
  | _ => true
  end.

(** The events [store_predictions] is built from: an image written by
    [save_annotation] or [save_parsing_result]. *)
Definition is_image_write (ev : event) : bool :=
  match ev with
  | save_annotation _ _ _ _ _ | save_parsing_result _ _ _ _ _ _ => true
  | _ => false
  end.

(** The file names [store_predictions] uses for one image. *)
Definition artifact_names `{OsPath} (image_id : Z) : list string :=
  [_IMAGE_FORMAT image_id; _SEMANTIC_PREDICTION_FORMAT image_id;
   _SEMANTIC_LABEL_FORMAT image_id;
   _CENTER_HEATMAP_PREDICTION_FORMAT image_id; _CENTER_LABEL_FORMAT image_id;
   _OFFSET_PREDICTION_RGB_FORMAT image_id; _OFFSET_LABEL_FORMAT image_id;
   _INSTANCE_PREDICTION_FORMAT image_id; _PANOPTIC_PREDICTION_FORMAT image_id;
   _PANOPTIC_LABEL_FORMAT image_id; _ANALYSIS_FORMAT image_id].

Definition supported_formats : list string :=
  ["two_channel_png"; "three_channel_png"; "two_channel_numpy_array"].

Definition is_format_error (e : exn) : bool :=
  is_overflow e || is_unknown_format e.

Definition is_save_annotation (ev : event) : bool :=
  match ev with
  | save_annotation _ _ _ _ _ => true
  | _ => false
  end.

(** * Properties *)

(** ** Lists of rows *)

Lemma elem_of_concat {A} (x : A) (a : list (list A)) :
  x ∈ concat a <-> exists row, row ∈ a /\ x ∈ row.
Proof.
  induction a as [|row a IH]; simpl.
  - split; [by intros ?%elem_of_nil | by intros (? & ?%elem_of_nil & _)].
  - rewrite elem_of_app, IH. split.
    + intros [Hx|(row' & Hrow' & Hx)].
      * exists row. split; [by left | done].
      * exists row'. split; [by right | done].
    + intros (row' & Hrow' & Hx). apply elem_of_cons in Hrow' as [->|Hrow'].
      * by left.
      * right. eauto.
Qed.

Lemma map2_ext_in {A B} (f g : A -> B) (a : list (list A)) :
  (forall x, x ∈ concat a -> f x = g x) -> map2 f a = map2 g a.
Proof.
  unfold map2. induction a as [|row a IH]; intros Hfg; simpl; [done|].
  f_equal.
  - apply map_ext_in. intros x Hx. apply Hfg. simpl.
    apply elem_of_app. left. by apply list_elem_of_In.
  - apply IH. intros x Hx. apply Hfg. simpl. apply elem_of_app. by right.
Qed.

Lemma map2_map2 {A B C} (f : A -> B) (g : B -> C) (a : list (list A)) :
  map2 g (map2 f a) = map2 (fun x => g (f x)) a.
Proof.
  unfold map2. rewrite map_map. apply map_ext. intros row. apply map_map.
Qed.

Lemma map2_id {A} (a : list (list A)) : map2 (fun x => x) a = a.
Proof.
  unfold map2. induction a as [|row a IH]; simpl; [done|].
  by rewrite map_id, IH.
Qed.

Lemma concat_map2 {A B} (f : A -> B) (a : list (list A)) :
  concat (map2 f a) = map f (concat a).
Proof.
  unfold map2. induction a as [|row a IH]; simpl; [done|].
  by rewrite map_app, IH.
Qed.

Lemma pixel_map2 {A B} (f : A -> B) (a : list (list A)) r c :
  pixel (map2 f a) r c = f <$> pixel a r c.
Proof.
  unfold pixel, map2. rewrite list_lookup_fmap.
  destruct (a !! r) as [row|]; simpl; [|done]. apply list_lookup_fmap.
Qed.

Lemma pixel_elem_of {A} (a : list (list A)) r c x :
  pixel a r c = Some x -> x ∈ concat a.
Proof.
  unfold pixel. destruct (a !! r) as [row|] eqn:Hr; [|done]. intros Hc.
  apply elem_of_concat. exists row. split.
  - eapply list_elem_of_lookup_2; eauto.
  - eapply list_elem_of_lookup_2; eauto.
Qed.

(** ** Outcomes *)

Lemma omap_Returns {A B} (f : A -> outcome B) (g : A -> B) (l : list A) :
  Forall (fun x => f x = Returns (g x)) l -> omap f l = Returns (map g l).
Proof.
  induction 1 as [|x l Hx _ IH]; simpl; [done|]. by rewrite Hx, IH.
Qed.

Lemma omap_inv {A B} (f : A -> outcome B) (d : B) (l : list A) (l' : list B) :
  omap f l = Returns l' ->
  l' = map (fun x => match f x with Returns y => y | Raises _ => d end) l.
Proof.
  revert l'. induction l as [|x l IH]; simpl; intros l' Hl.
  - by inversion Hl.
  - destruct (f x) as [y|e]; simpl in Hl; [|done].
    destruct (omap f l) as [ys|e]; simpl in Hl; [|done].
    inversion Hl; subst. f_equal. by apply IH.
Qed.

Lemma omap2_Returns {A B} (f : A -> outcome B) (g : A -> B)
  (a : list (list A)) :
  (forall x, x ∈ concat a -> f x = Returns (g x)) ->
  omap2 f a = Returns (map2 g a).
Proof.
  intros Hf. unfold omap2, map2. apply omap_Returns.
  apply Forall_forall. intros row Hrow. apply omap_Returns.
  apply Forall_forall. intros x Hx. apply Hf.
  apply elem_of_concat. eauto.
Qed.

Lemma omap2_inv {A B} (f : A -> outcome B) (d : B) (a : list (list A)) b :
  omap2 f a = Returns b ->
  b = map2 (fun x => match f x with Returns y => y | Raises _ => d end) a.
Proof.
  unfold omap2, map2. revert b. induction a as [|row a IH]; simpl; intros b Hb.
  - by inversion Hb.
  - destruct (omap f row) as [row'|e] eqn:Hrow; simpl in Hb; [|done].
    destruct (omap (omap f) a) as [a'|e]; simpl in Hb; [|done].
    inversion Hb; subst. f_equal; [by apply omap_inv | by apply IH].
Qed.

(** ** The lookup table *)

Lemma nth_replicate_default {A} (n k : nat) (x : A) :
  nth k (replicate n x) x = x.
Proof.
  revert k. induction n as [|n IH]; intros [|k]; simpl; auto.
Qed.

Lemma to_eval_id_map_padded :
  to_eval_id_map = _CITYSCAPES_TRAIN_ID_TO_EVAL_ID ++ replicate 236 0.
Proof. reflexivity. Qed.

Lemma to_eval_id_map_length : length to_eval_id_map = 256%nat.
Proof. reflexivity. Qed.

Lemma np_getitem_table (v : Z) :
  0 <= v <= 255 -> np_getitem to_eval_id_map v = Returns (table_entry v).
Proof.
  intros Hv. unfold np_getitem. rewrite to_eval_id_map_length.
  replace (0 <=? v) with true by (symmetry; apply Z.leb_le; lia).
  replace (v <? Z.of_nat 256) with true by (symmetry; apply Z.ltb_lt; lia).
  reflexivity.
Qed.

Lemma np_getitem_table_out (v : Z) :
  256 <= v -> np_getitem to_eval_id_map v = Raises (IndexError v 256).
Proof.
  intros Hv. unfold np_getitem. rewrite to_eval_id_map_length.
  replace (v <? Z.of_nat 256) with false by (symmetry; apply Z.ltb_ge; lia).
  replace (v <? 0) with false by (symmetry; apply Z.ltb_ge; lia).
  by rewrite !andb_false_r.
Qed.

Lemma table_entry_padding (v : Z) : 20 <= v -> table_entry v = 0.
Proof.
  intros Hv. unfold table_entry. rewrite to_eval_id_map_padded.
  rewrite app_nth2 by (simpl; lia). apply nth_replicate_default.
Qed.

Lemma table_entry_bound (v : Z) : 0 <= table_entry v <= 33.
Proof.
  destruct (decide (20 <= v)) as [Hv|Hv].
  - rewrite table_entry_padding by done. lia.
  - unfold table_entry. assert (Hn : (Z.to_nat v < 20)%nat) by lia.
    revert Hn. generalize (Z.to_nat v). intros n Hn.
    do 20 (destruct n as [|n]; [vm_compute; split; discriminate|]). lia.
Qed.

Lemma convert_in_range (prediction : array2) :
  Forall (fun v => 0 <= v <= 255) (concat prediction) ->
  _convert_cityscapes_train_id_to_eval_id prediction
  = Returns (map2 table_entry prediction).
Proof.
  rewrite Forall_forall. intros Hv. apply omap2_Returns.
  intros v Hin. by apply np_getitem_table, Hv.
Qed.

(** ** Decoding *)

Lemma floor_divide_packed (s i d : Z) :
  0 <= i < d -> np_floor_divide (s * d + i) d = s.
Proof.
  intros Hi. unfold np_floor_divide.
  destruct (Z.eqb_spec d 0) as [->|_]; [lia|].
  rewrite Z.div_add_l by lia. rewrite Z.div_small by done. lia.
Qed.

Lemma remainder_packed (s i d : Z) :
  0 <= i < d -> np_remainder (s * d + i) d = i.
Proof.
  intros Hi. unfold np_remainder.
  destruct (Z.eqb_spec d 0) as [->|_]; [lia|].
  rewrite Z.add_comm, Z.mod_add by lia. by apply Z.mod_small.
Qed.

(** C1. Wherever the packed id [s * d + i], with [0 <= i < d], sits in a
    panoptic map, decoding as [store_raw_predictions] does (floor division by
    the divisor, remainder by the divisor; no eval-id conversion) yields a
    semantic map with [s] and an instance map with [i] at that pixel. *)
Theorem panoptic_decode_roundtrip (s i d : Z) :
  0 <= i < d ->
  np_floor_divide (s * d + i) d = s /\
  np_remainder (s * d + i) d = i /\
  forall (panoptic_prediction : array2) (r c : nat),
    pixel panoptic_prediction r c = Some (s * d + i) ->
    (exists semantic,
        predicted_semantic_labels false panoptic_prediction d
        = Returns semantic /\ pixel semantic r c = Some s) /\
    pixel (predicted_instance_labels panoptic_prediction d) r c = Some i.
Proof.
  intros Hi. split; [by apply floor_divide_packed|].
  split; [by apply remainder_packed|].
  intros pan r c Hpx. split.
  - eexists. split; [reflexivity|].
    rewrite pixel_map2, Hpx. simpl. by rewrite floor_divide_packed.
  - unfold predicted_instance_labels. rewrite pixel_map2, Hpx. simpl.
    by rewrite remainder_packed.
Qed.

Lemma panoptic_decode_roundtrip_witness :
  0 <= 3 < 1000 /\
  np_floor_divide (11 * 1000 + 3) 1000 = 11 /\
  np_remainder (11 * 1000 + 3) 1000 = 3.
Proof.
  split; [lia|].
  pose proof (panoptic_decode_roundtrip 11 3 1000 ltac:(lia)) as (H1 & H2 & _).
  exact (conj H1 H2).
Defined.

(** C9. The train-id to eval-id table has 256 entries, the twenty
    cityscapes ids followed by zeros, so the conversion returns for every
    prediction whose ids lie in [0, 255]: each id is replaced by the table
    entry at that index, which is 0 for every id from 20 to 255. *)
Theorem convert_total_zero_padded (prediction : array2) :
  Forall (fun v => 0 <= v <= 255) (concat prediction) ->
  length to_eval_id_map = 256%nat /\
  to_eval_id_map = _CITYSCAPES_TRAIN_ID_TO_EVAL_ID ++ replicate 236 0 /\
  exists converted,
    _convert_cityscapes_train_id_to_eval_id prediction = Returns converted /\
    forall r c v,
      pixel prediction r c = Some v ->
      pixel converted r c = Some (nth (Z.to_nat v) to_eval_id_map 0) /\
      (20 <= v -> pixel converted r c = Some 0).
Proof.
  intros Hv. split; [reflexivity|]. split; [reflexivity|].
  exists (map2 table_entry prediction). split; [by apply convert_in_range|].
  intros r c v Hpx. rewrite pixel_map2, Hpx. simpl. split; [done|].
  intros H20. by rewrite table_entry_padding.
Qed.

Lemma convert_total_zero_padded_witness :
  Forall (fun v => 0 <= v <= 255) (concat [[0; 19]; [20; 255]]) /\
  exists converted,
    _convert_cityscapes_train_id_to_eval_id [[0; 19]; [20; 255]]
    = Returns converted /\
    pixel converted 0 0 = Some 7 /\ pixel converted 1 1 = Some 0.
Proof.
  assert (Hv : Forall (fun v => 0 <= v <= 255) (concat [[0; 19]; [20; 255]]))
    by (simpl; repeat constructor; lia).
  split; [exact Hv|].
  destruct (convert_total_zero_padded _ Hv) as (_ & _ & converted & Hc & Hpx).
  exists converted. split; [exact Hc|]. split.
  - exact (proj1 (Hpx 0%nat 0%nat 0 eq_refl)).
  - exact (proj2 (Hpx 1%nat 1%nat 255 eq_refl) ltac:(lia)).
Defined.

(** ** Procedures *)

Lemma bind_Returns {A B} (a : A) (k : A -> io B) :
  bind (lift (Returns a)) k = k a.
Proof. unfold bind, lift. by destruct (k a). Qed.

Lemma bind_ret {A B} (a : A) (k : A -> io B) : bind (ret a) k = k a.
Proof. apply bind_Returns. Qed.

Lemma bind_Raises {A B} (e : exn) (k : A -> io B) :
  bind (lift (Raises e)) k = ([], Raises e).
Proof. reflexivity. Qed.

Lemma bind_emit {B} (ev : event) (k : unit -> io B) :
  bind (emit ev) k = (ev :: trace (k tt), result (k tt)).
Proof. unfold bind, emit. by destruct (k tt). Qed.

Lemma trace_bind {A B} (m : io A) (k : A -> io B) :
  trace (bind m k)
  = trace m ++ match result m with
               | Returns a => trace (k a)
               | Raises _ => []
               end.
Proof.
  destruct m as [tr [a|e]]; simpl; [by destruct (k a)|].
  by rewrite app_nil_r.
Qed.

Lemma result_bind {A B} (m : io A) (k : A -> io B) :
  result (bind m k)
  = match result m with
    | Returns a => result (k a)
    | Raises e => Raises e
    end.
Proof. destruct m as [tr [a|e]]; simpl; [by destruct (k a)|done]. Qed.

Lemma io_eta {A} (m : io A) : m = (trace m, result m).
Proof. by destruct m. Qed.

(** ** The largest element *)

Lemma foldl_max_ge (x : Z) (xs : list Z) : x <= foldl Z.max x xs.
Proof.
  revert x. induction xs as [|y xs IH]; intros x; simpl; [lia|].
  specialize (IH (Z.max x y)). lia.
Qed.

Lemma foldl_max_elem (x : Z) (xs : list Z) : foldl Z.max x xs ∈ x :: xs.
Proof.
  revert x. induction xs as [|y xs IH]; intros x; simpl; [by left|].
  specialize (IH (Z.max x y)).
  apply elem_of_cons in IH as [IH|IH].
  - rewrite IH. destruct (Z.max_spec x y) as [[_ ->]|[_ ->]].
    + right. by left.
    + by left.
  - right. by right.
Qed.

Lemma foldl_max_upper (x : Z) (xs : list Z) (y : Z) :
  y ∈ x :: xs -> y <= foldl Z.max x xs.
Proof.
  revert x. induction xs as [|z xs IH]; intros x Hy; simpl.
  - apply elem_of_cons in Hy as [->|Hy%elem_of_nil]; [lia|done].
  - apply elem_of_cons in Hy as [->|Hy].
    + pose proof (foldl_max_ge (Z.max x z) xs). lia.
    + apply elem_of_cons in Hy as [->|Hy].
      * pose proof (foldl_max_ge (Z.max x z) xs). lia.
      * apply IH. by right.
Qed.


Lemma np_max_Raises (a : array2) (e : exn) :
  np_max a = Raises e -> e = ValueError_zero_size_reduction.
Proof. unfold np_max. destruct (concat a); congruence. Qed.


(** ** Writing the channels *)

Lemma replicate_const_map {A B} (z : B) (row : list A) :
  replicate (length row) z = map (fun _ => z) row.
Proof. induction row; simpl; [done|]. by f_equal. Qed.

Lemma np_zeros3_rectangular {A} (a : list (list A)) (c : nat) :
  rectangular a ->
  np_zeros3 (fst (shape2 a)) (snd (shape2 a)) c
  = map2 (fun _ => replicate c 0) a.
Proof.
  unfold rectangular, np_zeros3, map2. simpl. generalize (length (hd [] a)).
  intros w Hw. induction Hw as [|row a Hrow _ IH]; simpl; [done|].
  f_equal; [|done]. rewrite <- Hrow. apply replicate_const_map.
Qed.

Lemma set_channel_map2 {A} (k : nat) (g : A -> Z) (F : A -> list Z)
  (a : list (list A)) :
  set_channel k (map2 g a) (map2 F a) = map2 (fun x => <[k:=g x]> (F x)) a.
Proof.
  unfold set_channel, map2. induction a as [|row a IH]; simpl; [done|].
  f_equal; [|done]. clear IH. induction row; simpl; [done|]. by f_equal.
Qed.

Lemma channel_map2 {A} (k : nat) (F : A -> list Z) (a : list (list A)) :
  channel k (map2 F a) = map2 (fun x => nth k (F x) 0) a.
Proof. apply map2_map2. Qed.

(** ** [store_raw_predictions], stage by stage *)

Section StoreRawPredictionsStages.
Context `{Common} `{OsPath}.

Lemma output_folder_for_eq dataset_info save_dir kind sequence :
  output_folder_for dataset_info save_dir kind sequence
  = (output_folder_events dataset_info save_dir kind sequence,
     Returns (output_folder dataset_info save_dir kind sequence)).
Proof.
  unfold output_folder_for, output_folder_events, output_folder.
  by destruct (is_video_dataset dataset_info).
Qed.

Lemma semantic_stage_eq (convert_to_eval : bool)
  (dataset_info : DatasetDescriptor) (sem : array2) {B}
  (k : array2 -> io B) :
  bind (if convert_to_eval return io array2 then
          if str_contains "cityscapes" (dataset_name dataset_info) then
            lift (_convert_cityscapes_train_id_to_eval_id sem)
          else
            raise (ValueError_unsupported_dataset (dataset_name dataset_info))
        else ret sem) k
  = bind (lift (semantic_to_store convert_to_eval dataset_info sem)) k.
Proof.
  unfold semantic_to_store. destruct convert_to_eval; [|done].
  by destruct (str_contains _ _).
Qed.

(** The call, split at each point where it can end. *)
Lemma store_raw_predictions_stages predictions image_filename dataset_info
  save_dir sequence raw_panoptic_format convert_to_eval :
  store_raw_predictions predictions image_filename dataset_info save_dir
    sequence raw_panoptic_format convert_to_eval
  = match obind (dict_getitem predictions TARGET_SEMANTIC_KEY) label_map with
    | Raises e => ([], Raises e)
    | Returns sem =>
        match semantic_to_store convert_to_eval dataset_info sem with
        | Raises e => ([], Raises e)
        | Returns stored =>
            let semantic_events :=
              raw_semantic_events dataset_info save_dir sequence
                image_filename stored in
            match predictions !! TARGET_PANOPTIC_KEY with
            | None => (semantic_events, Returns tt)
            | Some (Arr3 _) => (semantic_events, Raises Unmodelled_rank)
            | Some (Arr2 pan) =>
                match predicted_semantic_labels convert_to_eval pan
                        (panoptic_label_divisor dataset_info) with
                | Raises e => (semantic_events, Raises e)
                | Returns semantic_labels =>
                    let panoptic :=
                      store_raw_panoptic raw_panoptic_format
                        (np_zeros3 (fst (shape2 pan)) (snd (shape2 pan)) 3)
                        semantic_labels
                        (predicted_instance_labels pan
                           (panoptic_label_divisor dataset_info))
                        (output_folder dataset_info save_dir "raw_panoptic"
                           sequence)
                        (splitext_root image_filename) in
                    (semantic_events
                       ++ output_folder_events dataset_info save_dir
                            "raw_panoptic" sequence
                       ++ trace panoptic,
                     result panoptic)
                end
            end
        end
    end.
Proof.
  unfold store_raw_predictions.
  destruct (obind (dict_getitem predictions TARGET_SEMANTIC_KEY) label_map)
    as [sem|e]; [|done].
  rewrite bind_Returns, semantic_stage_eq.
  destruct (semantic_to_store convert_to_eval dataset_info sem)
    as [stored|e]; [|done].
  rewrite bind_Returns. rewrite !output_folder_for_eq.
  unfold raw_semantic_events.
  destruct (predictions !! TARGET_PANOPTIC_KEY) as [[pan|pan]|]; simpl.
  - destruct (predicted_semantic_labels convert_to_eval pan
                (panoptic_label_divisor dataset_info)) as [sl|e]; simpl.
    + destruct (store_raw_panoptic _ _ _ _ _ _) as [tr r]; simpl.
      by rewrite <- !app_assoc.
    + done.
  - by rewrite ?app_nil_r.
  - by rewrite ?app_nil_r.
Qed.

Lemma store_raw_panoptic_two_channel_png zeros sl il folder fname ms mi :
  np_max sl = Returns ms -> np_max il = Returns mi ->
  store_raw_panoptic "two_channel_png" zeros sl il folder fname
  = if 255 <? ms then ([], Raises ValueError_overflow_semantic)
    else if 255 <? mi then ([], Raises (ValueError_overflow_instance 255))
    else ([save_annotation
             (Arr3 (set_channel 1 il (set_channel 0 sl zeros)))
             folder fname false None], Returns tt).
Proof.
  intros Hms Hmi. unfold store_raw_panoptic. simpl String.eqb. cbv iota.
  rewrite Hms, bind_Returns. destruct (255 <? ms); [done|].
  rewrite Hmi, bind_Returns. by destruct (255 <? mi).
Qed.

Lemma store_raw_panoptic_three_channel_png zeros sl il folder fname ms mi :
  np_max sl = Returns ms -> np_max il = Returns mi ->
  store_raw_panoptic "three_channel_png" zeros sl il folder fname
  = if 255 <? ms then ([], Raises ValueError_overflow_semantic)
    else if 65535 <? mi then
      ([], Raises (ValueError_overflow_instance 65535))
    else ([save_annotation
             (Arr3 (set_channel 2 (map2 (fun x => np_remainder x 256) il)
                      (set_channel 1
                         (map2 (fun x => np_floor_divide x 256) il)
                         (set_channel 0 sl zeros))))
             folder fname false None], Returns tt).
Proof.
  intros Hms Hmi. unfold store_raw_panoptic. simpl String.eqb. cbv iota.
  rewrite Hms, bind_Returns. destruct (255 <? ms); [done|].
  rewrite Hmi, bind_Returns. by destruct (65535 <? mi).
Qed.

Lemma store_raw_panoptic_two_channel_numpy_array zeros sl il folder fname :
  store_raw_panoptic "two_channel_numpy_array" zeros sl il folder fname
  = ([np_save (path_join folder (fname +:+ ".npy"))
        (Arr3 (set_channel 1 il (set_channel 0 sl zeros)))], Returns tt).
Proof. reflexivity. Qed.

Lemma store_raw_panoptic_unknown fmt zeros sl il folder fname :
  fmt ∉ supported_formats ->
  store_raw_panoptic fmt zeros sl il folder fname
  = ([], Raises (ValueError_unknown_format fmt)).
Proof.
  intros Hfmt. unfold store_raw_panoptic.
  destruct (String.eqb_spec fmt "two_channel_png") as [->|_].
  { exfalso. apply Hfmt. unfold supported_formats. set_solver. }
  destruct (String.eqb_spec fmt "three_channel_png") as [->|_].
  { exfalso. apply Hfmt. unfold supported_formats. set_solver. }
  destruct (String.eqb_spec fmt "two_channel_numpy_array") as [->|_].
  { exfalso. apply Hfmt. unfold supported_formats. set_solver. }
  done.
Qed.

(** The panoptic stage raises an overflow error only from the two png
    formats, and an unknown-format error only on an unsupported format. *)
Lemma store_raw_panoptic_result fmt zeros sl il folder fname :
  match result (store_raw_panoptic fmt zeros sl il folder fname) with
  | Returns _ => fmt ∈ supported_formats
  | Raises e =>
      (is_overflow e = true ->
       fmt = "two_channel_png" \/ fmt = "three_channel_png") /\
      (is_unknown_format e = true -> fmt ∉ supported_formats)
  end.
Proof.
  unfold store_raw_panoptic, supported_formats.
  destruct (String.eqb_spec fmt "two_channel_png") as [->|Hne1].
  { destruct (np_max sl) as [ms|e] eqn:Hms;
      [|apply np_max_Raises in Hms as ->; by split].
    rewrite bind_Returns. destruct (255 <? ms); [by split; [left|]|].
    destruct (np_max il) as [mi|e] eqn:Hmi;
      [|apply np_max_Raises in Hmi as ->; by split].
    rewrite bind_Returns. destruct (255 <? mi); [by split; [left|]|].
    simpl. set_solver. }
  destruct (String.eqb_spec fmt "three_channel_png") as [->|Hne2].
  { destruct (np_max sl) as [ms|e] eqn:Hms;
      [|apply np_max_Raises in Hms as ->; by split].
    rewrite bind_Returns. destruct (255 <? ms); [by split; [right|]|].
    destruct (np_max il) as [mi|e] eqn:Hmi;
      [|apply np_max_Raises in Hmi as ->; by split].
    rewrite bind_Returns. destruct (65535 <? mi); [by split; [right|]|].
    simpl. set_solver. }
  destruct (String.eqb_spec fmt "two_channel_numpy_array") as [->|Hne3].
  { simpl. set_solver. }
  simpl. split; [done|]. intros _.
  rewrite !not_elem_of_cons. repeat split; auto. apply not_elem_of_nil.
Qed.

(** The panoptic stage writes nothing when it raises. *)
Lemma store_raw_panoptic_Raises fmt zeros sl il folder fname e :
  result (store_raw_panoptic fmt zeros sl il folder fname) = Raises e ->
  trace (store_raw_panoptic fmt zeros sl il folder fname) = [].
Proof.
  unfold store_raw_panoptic.
  destruct (String.eqb fmt "two_channel_png").
  { destruct (np_max sl) as [ms|e1]; [|done].
    rewrite bind_Returns. destruct (255 <? ms); [done|].
    destruct (np_max il) as [mi|e2]; [|done].
    rewrite bind_Returns. by destruct (255 <? mi). }
  destruct (String.eqb fmt "three_channel_png").
  { destruct (np_max sl) as [ms|e1]; [|done].
    rewrite bind_Returns. destruct (255 <? ms); [done|].
    destruct (np_max il) as [mi|e2]; [|done].
    rewrite bind_Returns. by destruct (65535 <? mi). }
  by destruct (String.eqb fmt "two_channel_numpy_array").
Qed.

Lemma predicted_semantic_labels_map2 convert_to_eval pan d sl :
  predicted_semantic_labels convert_to_eval pan d = Returns sl ->
  exists f : Z -> Z, sl = map2 f pan.
Proof.
  unfold predicted_semantic_labels. destruct convert_to_eval; intros Hsl.
  - apply (omap2_inv _ 0) in Hsl. rewrite map2_map2 in Hsl. eauto.
  - inversion Hsl. eauto.
Qed.

End StoreRawPredictionsStages.

(** ** The raw panoptic formats *)

Section StoreRawPredictionsSpec.
Context `{Common} `{OsPath}.

Variables (predictions : gmap string ndarray) (image_filename : string)
  (dataset_info : DatasetDescriptor) (save_dir sequence : string)
  (convert_to_eval : bool).

Let divisor := panoptic_label_divisor dataset_info.
Let run (raw_panoptic_format : string) : io unit :=
  store_raw_predictions predictions image_filename dataset_info save_dir
    sequence raw_panoptic_format convert_to_eval.
Let panoptic_folder :=
  output_folder dataset_info save_dir "raw_panoptic" sequence.

(** The call reaches the format dispatch when both label maps are in the
    bundle and the semantic stage and the decoding return. *)
Lemma store_raw_predictions_dispatch fmt sem stored pan sl :
  predictions !! TARGET_SEMANTIC_KEY = Some (Arr2 sem) ->
  semantic_to_store convert_to_eval dataset_info sem = Returns stored ->
  predictions !! TARGET_PANOPTIC_KEY = Some (Arr2 pan) ->
  predicted_semantic_labels convert_to_eval pan divisor = Returns sl ->
  let panoptic :=
    store_raw_panoptic fmt
      (np_zeros3 (fst (shape2 pan)) (snd (shape2 pan)) 3) sl
      (predicted_instance_labels pan divisor) panoptic_folder
      (splitext_root image_filename) in
  run fmt
  = (raw_semantic_events dataset_info save_dir sequence image_filename
       stored
       ++ output_folder_events dataset_info save_dir "raw_panoptic" sequence
       ++ trace panoptic,
     result panoptic).
Proof.
  intros Hsem Hstored Hpan Hsl. unfold run.
  rewrite store_raw_predictions_stages. unfold dict_getitem.
  rewrite Hsem. simpl. rewrite Hstored, Hpan. fold divisor. by rewrite Hsl.
Qed.

Lemma last_events {A} (l1 l2 : list A) (x : A) :
  last (l1 ++ l2 ++ [x]) = Some x.
Proof. rewrite app_assoc. apply last_snoc. Qed.

(** The array handed to the writer by the two-channel formats. *)
Lemma two_channels_written pan (f g : Z -> Z) :
  rectangular pan ->
  let saved :=
    set_channel 1 (map2 g pan)
      (set_channel 0 (map2 f pan)
         (np_zeros3 (fst (shape2 pan)) (snd (shape2 pan)) 3)) in
  channel 0 saved = map2 f pan /\ channel 1 saved = map2 g pan /\
  channel 2 saved = map2 (fun _ => 0) pan.
Proof.
  intros Hrect saved. subst saved.
  rewrite np_zeros3_rectangular by done.
  rewrite !set_channel_map2, !channel_map2. done.
Qed.


End StoreRawPredictionsSpec.

(** ** Where the errors come from *)

Lemma omap_Raises {A B} (f : A -> outcome B) (l : list A) (e : exn) :
  omap f l = Raises e -> exists x, x ∈ l /\ f x = Raises e.
Proof.
  induction l as [|x l IH]; simpl; [done|].
  destruct (f x) as [y|e'] eqn:Hx; simpl.
  - destruct (omap f l) as [ys|e'']; simpl; [done|].
    intros [= ->]. destruct IH as (x' & Hin & Hx'); [done|].
    exists x'. split; [by right|done].
  - intros [= ->]. exists x. split; [by left|done].
Qed.

Lemma np_getitem_Raises (table : list Z) (i : Z) (e : exn) :
  np_getitem table i = Raises e -> exists size, e = IndexError i size.
Proof.
  unfold np_getitem. repeat case_match; try done. intros [= <-]. eauto.
Qed.

Lemma convert_Raises (prediction : array2) (e : exn) :
  _convert_cityscapes_train_id_to_eval_id prediction = Raises e ->
  exists i size, e = IndexError i size.
Proof.
  intros (row & _ & Hrow)%omap_Raises.
  apply omap_Raises in Hrow as (i & _ & Hi).
  apply np_getitem_Raises in Hi. eauto.
Qed.

Lemma semantic_to_store_Raises convert_to_eval dataset_info sem e :
  semantic_to_store convert_to_eval dataset_info sem = Raises e ->
  is_format_error e = false.
Proof.
  unfold semantic_to_store. destruct convert_to_eval; [|done].
  destruct (str_contains _ _).
  - by intros (i & size & ->)%convert_Raises.
  - by intros [= <-].
Qed.

Lemma predicted_semantic_labels_Raises convert_to_eval pan d e :
  predicted_semantic_labels convert_to_eval pan d = Raises e ->
  is_format_error e = false.
Proof.
  unfold predicted_semantic_labels. destruct convert_to_eval; [|done].
  by intros (i & size & ->)%convert_Raises.
Qed.

Section StoreRawPredictionsErrors.
Context `{Common} `{OsPath}.

Variables (predictions : gmap string ndarray) (image_filename : string)
  (dataset_info : DatasetDescriptor) (save_dir sequence : string)
  (convert_to_eval : bool).

Let divisor := panoptic_label_divisor dataset_info.
Let run (raw_panoptic_format : string) : io unit :=
  store_raw_predictions predictions image_filename dataset_info save_dir
    sequence raw_panoptic_format convert_to_eval.
Let panoptic_folder :=
  output_folder dataset_info save_dir "raw_panoptic" sequence.
Let semantic_events (stored : array2) : list event :=
  raw_semantic_events dataset_info save_dir sequence image_filename stored.

(** An overflow or unknown-format error is raised by the format dispatch,
    after the raw semantic prediction has been written. *)
Lemma format_error_origin fmt e :
  result (run fmt) = Raises e -> is_format_error e = true ->
  exists sem stored pan sl,
    predictions !! TARGET_SEMANTIC_KEY = Some (Arr2 sem) /\
    semantic_to_store convert_to_eval dataset_info sem = Returns stored /\
    predictions !! TARGET_PANOPTIC_KEY = Some (Arr2 pan) /\
    predicted_semantic_labels convert_to_eval pan divisor = Returns sl /\
    result (store_raw_panoptic fmt
              (np_zeros3 (fst (shape2 pan)) (snd (shape2 pan)) 3) sl
              (predicted_instance_labels pan divisor) panoptic_folder
              (splitext_root image_filename)) = Raises e /\
    trace (run fmt)
    = semantic_events stored
        ++ output_folder_events dataset_info save_dir "raw_panoptic"
             sequence.
Proof.
  unfold run. rewrite store_raw_predictions_stages. unfold dict_getitem.
  destruct (predictions !! TARGET_SEMANTIC_KEY) as [[sem|sem]|] eqn:Hsem;
    simpl; [|by intros [= <-]..].
  destruct (semantic_to_store _ _ _) as [stored|e'] eqn:Hstored; simpl.
  2:{ intros [= ->] He.
      apply semantic_to_store_Raises in Hstored. congruence. }
  destruct (predictions !! TARGET_PANOPTIC_KEY) as [[pan|pan]|] eqn:Hpan;
    simpl; [|by intros [= <-]|done].
  fold divisor.
  destruct (predicted_semantic_labels _ _ _) as [sl|e'] eqn:Hsl; simpl.
  2:{ intros [= ->] He.
      apply predicted_semantic_labels_Raises in Hsl. congruence. }
  intros He _. exists sem, stored, pan, sl. repeat (split; [done|]).
  fold panoptic_folder in He |- *.
  by rewrite (store_raw_panoptic_Raises _ _ _ _ _ _ _ He), app_nil_r.
Qed.

Lemma output_folder_events_no_save kind :
  List.filter is_save_annotation
    (output_folder_events dataset_info save_dir kind sequence) = [].
Proof.
  unfold output_folder_events. by destruct (is_video_dataset dataset_info).
Qed.

(** C6. For ['two_channel_numpy_array'] no overflow error is ever raised,
    whatever the ids; on a call that reaches the format dispatch the call
    returns, its last effect is [np.save] of the three-channel array to
    [<image_filename>.npy] in the panoptic folder, with the semantic ids in
    channel 0 and the instance ids in channel 1, and the only image written
    is the raw semantic prediction. *)
Theorem two_channel_numpy_array_unchecked :
  ~ raises_with is_overflow (run "two_channel_numpy_array") /\
  forall sem stored pan semantic_ids,
    predictions !! TARGET_SEMANTIC_KEY = Some (Arr2 sem) ->
    semantic_to_store convert_to_eval dataset_info sem = Returns stored ->
    predictions !! TARGET_PANOPTIC_KEY = Some (Arr2 pan) ->
    rectangular pan ->
    predicted_semantic_labels convert_to_eval pan divisor
    = Returns semantic_ids ->
    result (run "two_channel_numpy_array") = Returns tt /\
    exists saved,
      last (trace (run "two_channel_numpy_array"))
      = Some (np_save
                (path_join panoptic_folder
                   (splitext_root image_filename +:+ ".npy"))
                (Arr3 saved)) /\
      channel 0 saved = semantic_ids /\
      channel 1 saved = predicted_instance_labels pan divisor /\
      List.filter is_save_annotation (trace (run "two_channel_numpy_array"))
      = [save_annotation (Arr2 stored)
           (output_folder dataset_info save_dir "raw_semantic" sequence)
           (splitext_root image_filename) false None].
Proof.
  split.
  - intros (e & He & Hov).
    apply format_error_origin in He as (sem & stored & pan & sl & _ & _ & _
                                        & _ & Hres & _).
    + by rewrite store_raw_panoptic_two_channel_numpy_array in Hres.
    + unfold is_format_error. by rewrite Hov.
  - intros sem stored pan sl Hsem Hstored Hpan Hrect Hsl.
    unfold run.
    rewrite (store_raw_predictions_dispatch _ _ _ _ _ _ _ _ _ _ _
               Hsem Hstored Hpan Hsl).
    rewrite store_raw_panoptic_two_channel_numpy_array. simpl.
    split; [done|]. eexists. split; [apply last_events|].
    destruct (predicted_semantic_labels_map2 _ _ _ _ Hsl) as [f ->].
    destruct (two_channels_written pan f
                (fun x => np_remainder x divisor) Hrect) as (Hc0 & Hc1 & _).
    split; [done|]. split; [done|].
    unfold raw_semantic_events.
    rewrite !List.filter_app, !output_folder_events_no_save. done.
Qed.

(** C4, as the code has it. On a call that reaches the format dispatch
    (both label maps present, the semantic stage and the decoding return),
    every format string other than the three supported ones fails with the
    unknown-format [ValueError], after the raw semantic prediction has been
    written. *)
Theorem unknown_format_rejected fmt sem stored pan sl :
  fmt ∉ supported_formats ->
  predictions !! TARGET_SEMANTIC_KEY = Some (Arr2 sem) ->
  semantic_to_store convert_to_eval dataset_info sem = Returns stored ->
  predictions !! TARGET_PANOPTIC_KEY = Some (Arr2 pan) ->
  predicted_semantic_labels convert_to_eval pan divisor = Returns sl ->
  run fmt
  = (semantic_events stored
       ++ output_folder_events dataset_info save_dir "raw_panoptic" sequence,
     Raises (ValueError_unknown_format fmt)).
Proof.
  intros Hfmt Hsem Hstored Hpan Hsl. unfold run.
  rewrite (store_raw_predictions_dispatch _ _ _ _ _ _ _ _ _ _ _
             Hsem Hstored Hpan Hsl).
  rewrite store_raw_panoptic_unknown by done. simpl.
  by rewrite app_nil_r.
Qed.

(** C10. An overflow or unknown-format error is raised only when the
    bundle has the panoptic key, and then the raw semantic prediction has
    already been written; without the key the format string is not looked
    at: the call behaves the same for every format, raises neither error,
    and returns once the semantic stage has. *)
Theorem format_errors_only_with_panoptic fmt :
  (forall e,
      result (run fmt) = Raises e ->
      is_overflow e = true \/ is_unknown_format e = true ->
      is_Some (predictions !! TARGET_PANOPTIC_KEY) /\
      exists stored rest, trace (run fmt) = semantic_events stored ++ rest) /\
  (predictions !! TARGET_PANOPTIC_KEY = None ->
   (forall fmt', run fmt' = run fmt) /\
   ~ raises_with is_format_error (run fmt) /\
   forall sem stored,
     predictions !! TARGET_SEMANTIC_KEY = Some (Arr2 sem) ->
     semantic_to_store convert_to_eval dataset_info sem = Returns stored ->
     run fmt = (semantic_events stored, Returns tt)).
Proof.
  split.
  - intros e He Hkind.
    apply format_error_origin in He
        as (sem & stored & pan & sl & _ & _ & Hpan & _ & _ & Htr).
    + split; [by rewrite Hpan|]. eauto.
    + unfold is_format_error. destruct Hkind as [-> | ->]; [done|].
      apply orb_true_r.
  - intros Hnone. split; [|split].
    + intros fmt'. unfold run. rewrite !store_raw_predictions_stages.
      by rewrite Hnone.
    + intros (e & He & Hkind).
      apply format_error_origin in He
          as (_ & _ & pan & _ & _ & _ & Hpan & _); [|done].
      congruence.
    + intros sem stored Hsem Hstored. unfold run.
      rewrite store_raw_predictions_stages. unfold dict_getitem.
      rewrite Hsem. simpl. by rewrite Hstored, Hnone.
Qed.

End StoreRawPredictionsErrors.

(** ** Conversion to eval ids *)

Section EvalIdConversion.
Context `{Common} `{OsPath}.

Variables (predictions : gmap string ndarray) (image_filename : string)
  (dataset_info : DatasetDescriptor) (save_dir sequence : string)
  (raw_panoptic_format : string).

Let run : io unit :=
  store_raw_predictions predictions image_filename dataset_info save_dir
    sequence raw_panoptic_format true.

(** C5. With [convert_to_eval] set and a semantic prediction in the
    bundle: for a dataset whose name does not contain ['cityscapes'] the
    call raises the unsupported-dataset [ValueError] before writing
    anything; for a cityscapes dataset and class ids in [0, 255], what is
    written as raw semantic prediction is the prediction with every class id
    replaced by the entry of the lookup table at that index. *)
Theorem eval_id_conversion sem :
  predictions !! TARGET_SEMANTIC_KEY = Some (Arr2 sem) ->
  (str_contains "cityscapes" (dataset_name dataset_info) = false ->
   run = ([], Raises (ValueError_unsupported_dataset
                        (dataset_name dataset_info))) /\
   raises_with is_ValueError run) /\
  (str_contains "cityscapes" (dataset_name dataset_info) = true ->
   Forall (fun v => 0 <= v <= 255) (concat sem) ->
   exists rest,
     trace run
     = raw_semantic_events dataset_info save_dir sequence image_filename
         (map2 (fun v => nth (Z.to_nat v) to_eval_id_map 0) sem)
         ++ rest).
Proof.
  intros Hsem. unfold run. rewrite store_raw_predictions_stages.
  unfold dict_getitem. rewrite Hsem. simpl. unfold semantic_to_store.
  split.
  - intros ->. split; [done|]. eexists. by split.
  - intros -> Hrange. rewrite (convert_in_range sem Hrange).
    fold (map2 table_entry sem).
    change (map2 (fun v => nth (Z.to_nat v) to_eval_id_map 0) sem)
      with (map2 table_entry sem).
    destruct (predictions !! TARGET_PANOPTIC_KEY) as [[pan|pan]|];
      [|by exists []; rewrite app_nil_r..].
    case_match; simpl; [eauto | by exists []; rewrite app_nil_r].
Qed.

End EvalIdConversion.

(** ** The foreground mask *)

Lemma elem_of_insert_unique (x y : Z) (l : list Z) :
  y ∈ insert_unique x l <-> y = x \/ y ∈ l.
Proof.
  induction l as [|z l IH]; simpl.
  - rewrite elem_of_cons. tauto.
  - destruct (Z.ltb_spec x z); [by rewrite elem_of_cons|].
    destruct (Z.eqb_spec x z) as [->|Hne].
    + rewrite elem_of_cons. tauto.
    + rewrite !elem_of_cons, IH. tauto.
Qed.

Lemma elem_of_np_unique (x : Z) (a : array2) :
  x ∈ np_unique a <-> x ∈ concat a.
Proof.
  unfold np_unique. induction (concat a) as [|y l IH]; simpl; [done|].
  by rewrite elem_of_insert_unique, elem_of_cons, IH.
Qed.

Lemma np_logical_or_map2 {A} (f g : A -> bool) (a : list (list A)) :
  np_logical_or (map2 f a) (map2 g a) = map2 (fun x => f x || g x) a.
Proof.
  unfold np_logical_or, map2. induction a as [|row a IH]; simpl; [done|].
  f_equal; [|done]. clear IH. induction row; simpl; [done|]. by f_equal.
Qed.

Lemma fg_mask_loop (label_map : array2) (thing_list classes : list Z)
  (g : Z -> bool) :
  foldl (fun fg_mask class_id =>
           if py_in class_id thing_list then
             np_logical_or fg_mask (map2 (fun x => x =? class_id) label_map)
           else fg_mask)
    (map2 g label_map) classes
  = map2 (fun x =>
            g x || existsb (fun class_id =>
                              py_in class_id thing_list && (x =? class_id))
                     classes)
      label_map.
Proof.
  revert g. induction classes as [|class_id classes IH]; intros g; simpl.
  - apply map2_ext_in. intros x _. by rewrite orb_false_r.
  - destruct (py_in class_id thing_list); simpl.
    + rewrite np_logical_or_map2, IH. apply map2_ext_in. intros x _.
      by rewrite orb_assoc.
    + apply IH.
Qed.

Lemma py_in_spec (class_id : Z) (thing_list : list Z) :
  py_in class_id thing_list = bool_decide (class_id ∈ thing_list).
Proof.
  unfold py_in. induction thing_list as [|t l IH]; cbn [existsb].
  - symmetry. apply bool_decide_eq_false_2, not_elem_of_nil.
  - rewrite IH. destruct (Z.eqb_spec class_id t) as [->|Hne]; cbn [orb].
    + symmetry. apply bool_decide_eq_true_2. by left.
    + apply bool_decide_ext. rewrite elem_of_cons. tauto.
Qed.

Lemma existsb_selected (x : Z) (thing_list classes : list Z) :
  x ∈ classes ->
  existsb (fun class_id => py_in class_id thing_list && (x =? class_id))
    classes = py_in x thing_list.
Proof.
  intros Hx. destruct (py_in x thing_list) eqn:Hin.
  - apply existsb_exists. exists x. split; [by apply list_elem_of_In|].
    by rewrite Hin, Z.eqb_refl.
  - apply not_true_is_false. intros (y & _ & Hy)%existsb_exists.
    apply andb_true_iff in Hy as [Hy ->%Z.eqb_eq]. congruence.
Qed.

(** The mask, pixel by pixel. *)
Lemma get_fg_mask_map2 (label_map : array2) (thing_list : list Z) :
  _get_fg_mask label_map thing_list
  = map2 (fun x => [if bool_decide (x ∈ thing_list) then 1 else 0])
      label_map.
Proof.
  unfold _get_fg_mask. rewrite fg_mask_loop, map2_map2.
  apply map2_ext_in. intros x Hx. simpl.
  rewrite existsb_selected by (by apply elem_of_np_unique).
  by rewrite py_in_spec.
Qed.

(** ** Broadcasting *)

Lemma broadcast_Forall2 {A B C} (f : A -> B -> outcome C) (g : A -> B -> C)
  (xs : list A) (ys : list B) :
  Forall2 (fun x y => f x y = Returns (g x y)) xs ys ->
  broadcast f xs ys = Returns (zip_with g xs ys).
Proof.
  intros Hxy. unfold broadcast.
  rewrite (Forall2_length _ _ _ Hxy), Nat.eqb_refl.
  induction Hxy as [|x y xs ys Hx _ IH]; simpl; [done|].
  by rewrite Hx, IH.
Qed.

Lemma broadcast_Forall2_map {A B C D} (f : A -> B -> outcome C)
  (g : A -> D -> C) (h : D -> B) (xs : list A) (zs : list D) :
  Forall2 (fun x z => f x (h z) = Returns (g x z)) xs zs ->
  broadcast f xs (map h zs) = Returns (zip_with g xs zs).
Proof.
  intros Hxz. unfold broadcast.
  rewrite length_map, (Forall2_length _ _ _ Hxz), Nat.eqb_refl.
  induction Hxz as [|x z xs zs Hx _ IH]; simpl; [done|].
  by rewrite Hx, IH.
Qed.

Lemma pixel_zip_with {A B C} (g : A -> B -> C) (a : list (list A))
  (b : list (list B)) (r c : nat) :
  pixel (zip_with (zip_with g) a b) r c
  = match pixel a r c, pixel b r c with
    | Some x, Some y => Some (g x y)
    | _, _ => None
    end.
Proof.
  unfold pixel. rewrite lookup_zip_with.
  destruct (a !! r) as [ra|]; simpl; [|done].
  destruct (b !! r) as [rb|]; simpl; [|by destruct (ra !! c)].
  rewrite lookup_zip_with.
  destruct (ra !! c); simpl; [|done]. by destruct (rb !! c).
Qed.

Lemma broadcast_same_shape {A B C} (f : A -> B -> outcome C)
  (g : A -> B -> C) (a : list (list A)) (b : list (list B)) :
  (forall x y, f x y = Returns (g x y)) ->
  same_shape a b ->
  broadcast (broadcast f) a b = Returns (zip_with (zip_with g) a b).
Proof.
  intros Hf Hab. apply broadcast_Forall2.
  eapply Forall2_impl; [exact Hab|]. intros ra rb Hlen. simpl in Hlen.
  apply broadcast_Forall2. revert rb Hlen.
  induction ra as [|x ra IH]; intros [|y rb] Hlen; simpl in Hlen;
    try discriminate; constructor; auto.
Qed.

Lemma same_shape_map2_r {A B C} (h : B -> C) (a : list (list A))
  (b : list (list B)) :
  same_shape a b -> same_shape a (map2 h b).
Proof.
  intros Hab. unfold same_shape, map2. apply Forall2_fmap_r.
  eapply Forall2_impl; [exact Hab|]. intros ra rb Hlen. simpl.
  by rewrite length_map.
Qed.

Lemma same_shape_zip_with_l {A B C D} (g : A -> B -> C) (a : list (list A))
  (b : list (list B)) (d : list (list D)) :
  same_shape a b -> same_shape b d ->
  same_shape (zip_with (zip_with g) a b) d.
Proof.
  unfold same_shape. intros Hab. revert d.
  induction Hab as [|ra rb a b Hlen _ IH]; intros d Hbd; simpl.
  - by inversion Hbd.
  - inversion Hbd as [|? rd ? d' Hlen' Hbd']; subst. constructor; [|auto].
    rewrite length_zip_with. lia.
Qed.

Lemma same_shape_refl_map2 {A B} (h : A -> B) (a : list (list A)) :
  same_shape a (map2 h a).
Proof.
  apply same_shape_map2_r. unfold same_shape.
  induction a; constructor; auto.
Qed.

(** A pixel of any number of channels times a one-channel pixel. *)
Lemma broadcast_channels (px : list Z) (m : Z) :
  broadcast (fun x y => Returns (x * y)) px [m]
  = Returns (map (fun x => x * m) px).
Proof.
  unfold broadcast. destruct px as [|x [|x' px]]; simpl; [done..|].
  rewrite (omap_Returns _ (fun x => x * m)); [done|].
  apply Forall_forall. done.
Qed.

Lemma np_multiply_mask (rgb : array3) (label_map : array2) (m : Z -> Z) :
  same_shape rgb label_map ->
  np_multiply rgb (map2 (fun x => [m x]) label_map)
  = Returns (zip_with (zip_with (fun px x => map (fun v => v * m x) px))
               rgb label_map).
Proof.
  intros Hshape. unfold np_multiply, map2. apply broadcast_Forall2_map.
  eapply Forall2_impl; [exact Hshape|].
  intros row_rgb row_lm Hlen. simpl in Hlen. apply broadcast_Forall2_map.
  revert row_lm Hlen.
  induction row_rgb as [|px row_rgb IH]; intros [|x row_lm] Hlen;
    simpl in Hlen; try discriminate; constructor; auto.
  apply broadcast_channels.
Qed.

Section ForegroundMask.
Context `{VisUtils}.

(** C7. For every label map and thing list, the mask of [_get_fg_mask] is
    [[1]] at the pixels whose class id is in the thing list and [[0]] at
    every other pixel; and the flow image of an offset field, when it has
    the shape of the label map, multiplied by the mask keeps the pixels of
    thing classes and is zero in every channel of every other pixel. *)
Theorem fg_mask_correct (label_map : array2) (thing_list : list Z) :
  let is_thing (class_id : Z) := bool_decide (class_id ∈ thing_list) in
  _get_fg_mask label_map thing_list
  = map2 (fun class_id => [if is_thing class_id then 1 else 0]) label_map /\
  forall center_offset : array3,
    same_shape (flow_to_color center_offset) label_map ->
    exists masked,
      masked_offset_rgb center_offset label_map thing_list
      = Returns masked /\
      forall r c px class_id,
        pixel (flow_to_color center_offset) r c = Some px ->
        pixel label_map r c = Some class_id ->
        pixel masked r c
        = Some (if is_thing class_id then px else map (fun _ => 0) px).
Proof.
  intros is_thing. split; [apply get_fg_mask_map2|].
  intros center_offset Hshape. unfold masked_offset_rgb.
  rewrite get_fg_mask_map2.
  rewrite (np_multiply_mask _ _
             (fun x => if bool_decide (x ∈ thing_list) then 1 else 0))
    by done.
  eexists. split; [reflexivity|].
  intros r c px class_id Hpx Hcls. rewrite pixel_zip_with, Hpx, Hcls.
  f_equal. unfold is_thing. destruct (bool_decide _).
  - rewrite <- (map_id px) at 2. apply map_ext. intros v. lia.
  - apply map_ext. intros v. lia.
Qed.

End ForegroundMask.

(** ** The semantic error mask *)

Lemma error_prediction_same_shape (semantic_prediction gt_semantic_raw : array2)
  (ignore_label : Z) :
  same_shape semantic_prediction gt_semantic_raw ->
  error_prediction semantic_prediction gt_semantic_raw ignore_label
  = Returns
      (zip_with
         (zip_with (fun p g =>
                      if negb (p =? astype_uint8 g)
                         && negb (astype_uint8 g =? ignore_label)
                      then 255 else 0))
         semantic_prediction gt_semantic_raw).
Proof.
  intros Hshape. unfold error_prediction.
  rewrite (broadcast_same_shape _ (fun p l => negb (p =? l)))
    by (done || by apply same_shape_map2_r).
  rewrite (broadcast_same_shape _ andb); [|done|].
  2:{ apply same_shape_zip_with_l; [by apply same_shape_map2_r|].
      apply same_shape_refl_map2. }
  cbn [obind]. f_equal. clear Hshape. unfold map2.
  revert gt_semantic_raw.
  induction semantic_prediction as [|rp a IH]; intros [|rg b]; simpl;
    [done..|].
  f_equal; [|apply IH]. clear IH. revert rg.
  induction rp as [|p rp IH]; intros [|g rg]; simpl; [done..|].
  f_equal; [|apply IH]. by destruct (negb _ && negb _).
Qed.

Lemma last_trace_bind {A B} (m : io A) (k : A -> io B) (b : B) (ev : event) :
  result (bind m k) = Returns b ->
  (forall a, result m = Returns a -> result (k a) = Returns b ->
             last (trace (k a)) = Some ev) ->
  last (trace (bind m k)) = Some ev.
Proof.
  rewrite result_bind, trace_bind. destruct (result m) as [a|e]; [|done].
  intros Hk Hlast. rewrite last_app. by rewrite (Hlast a eq_refl Hk).
Qed.

Section SemanticError.
Context `{Common} `{OsPath} `{VisUtils}.

Variables (predictions inputs : gmap string ndarray) (image_id : Z)
  (dataset_info : DatasetDescriptor) (save_dir : string).

Let run : io unit :=
  store_predictions predictions inputs image_id dataset_info save_dir.

(** C8, as the code has it. With [label] the ground truth as line 328
    narrows it to uint8 (its value modulo 256, the ground truth itself when it
    lies in [0, 255]), for a prediction of the same shape: at every pixel the
    error mask is 255 exactly when the semantic prediction differs from
    [label] and [label] is not the ignore label, and 0 otherwise; and this
    mask is what [store_predictions] saves last, as
    [<image_id>_semantic_error]. *)
Theorem semantic_error_mask (sem gt : array2) :
  same_shape sem gt ->
  let ignore := ignore_label dataset_info in
  exists err,
    error_prediction sem gt ignore = Returns err /\
    (forall r c p g,
        pixel sem r c = Some p -> pixel gt r c = Some g ->
        let label := astype_uint8 g in
        pixel err r c
        = Some (if bool_decide (p <> label /\ label <> ignore)
                then 255 else 0) /\
        (0 <= g <= 255 -> label = g)) /\
    (forall r c v, pixel err r c = Some v -> v = 0 \/ v = 255) /\
    (predictions !! TARGET_SEMANTIC_KEY = Some (Arr2 sem) ->
     inputs !! GT_SEMANTIC_RAW = Some (Arr2 gt) ->
     result run = Returns tt ->
     last (trace run)
     = Some (save_annotation (Arr2 err) save_dir
               (_ANALYSIS_FORMAT image_id) false None)).
Proof.
  intros Hshape ignore. eexists.
  split; [by apply error_prediction_same_shape|]. split; [|split].
  - intros r c p g Hp Hg label. split.
    + rewrite pixel_zip_with, Hp, Hg. f_equal. subst label ignore.
      destruct (Z.eqb_spec p (astype_uint8 g));
        destruct (Z.eqb_spec (astype_uint8 g) (ignore_label dataset_info));
        simpl; case_bool_decide; try done; tauto.
    + intros Hg'. unfold label, astype_uint8. apply Z.mod_small. lia.
  - intros r c v. rewrite pixel_zip_with.
    destruct (pixel sem r c) as [p|]; [|done].
    destruct (pixel gt r c) as [g|]; [|done].
    intros [= <-]. destruct (negb _ && negb _); auto.
  - intros Hsem Hgt Hres. unfold run, store_predictions in *.
    repeat (eapply last_trace_bind; [exact Hres|]; clear Hres;
            intros ? ? Hres).
    unfold lift, dict_getitem in *. simpl in *.
    repeat match goal with
           | Hr : context [inputs !! GT_SEMANTIC_RAW] |- _ =>
               rewrite Hgt in Hr; simpl in Hr
           | Hr : context [predictions !! TARGET_SEMANTIC_KEY] |- _ =>
               rewrite Hsem in Hr; simpl in Hr
           | Hr : Returns _ = Returns _ |- _ =>
               injection Hr as Hr; try subst
           end.
    rewrite error_prediction_same_shape in * by done.
    match goal with
    | Hr : Returns _ = Returns ?a |- _ => injection Hr as <-
    end.
    done.
Qed.

End SemanticError.

(** ** Runs of the model *)

Section Runs.
Local Existing Instances Sample.common Sample.os_path Sample.vis_utils.

Lemma panoptic_map_rectangular : rectangular [[11003; 0]].
Proof. repeat constructor. Defined.

Example two_channel_png_accepts_255 :
  store_raw_predictions
    (<[TARGET_PANOPTIC_KEY := Arr2 [[255 * 1000 + 255]]]>
       Sample.semantic_only)
    "a" Sample.cityscapes "out" "" "two_channel_png" false
  = ([save_annotation (Arr2 [[11; 0]]) "out/raw_semantic" "a" false None;
      save_annotation (Arr3 [[[255; 255; 0]]]) "out/raw_panoptic" "a" false
        None],
     Returns tt).
Proof. vm_compute. reflexivity. Qed.

Example two_channel_png_rejects_semantic_256 :
  store_raw_predictions
    (<[TARGET_PANOPTIC_KEY := Arr2 [[256 * 1000 + 0]]]> Sample.semantic_only)
    "a" Sample.cityscapes "out" "" "two_channel_png" false
  = ([save_annotation (Arr2 [[11; 0]]) "out/raw_semantic" "a" false None],
     Raises ValueError_overflow_semantic).
Proof. vm_compute. reflexivity. Qed.

Example two_channel_png_rejects_instance_256 :
  store_raw_predictions
    (<[TARGET_PANOPTIC_KEY := Arr2 [[11 * 1000 + 256]]]> Sample.semantic_only)
    "a" Sample.cityscapes "out" "" "two_channel_png" false
  = ([save_annotation (Arr2 [[11; 0]]) "out/raw_semantic" "a" false None],
     Raises (ValueError_overflow_instance 255)).
Proof. vm_compute. reflexivity. Qed.

Example three_channel_png_accepts_65535 :
  store_raw_predictions
    (<[TARGET_PANOPTIC_KEY := Arr2 [[11 * 100000 + 65535]]]>
       Sample.semantic_only)
    "a"
    {| dataset_name := "kitti_step"; is_video_dataset := true;
       panoptic_label_divisor := 100000; ignore_label := 255;
       class_has_instances_list := [11; 13]; colormap := "cityscapes" |}
    "out" "0001" "three_channel_png" false
  = ([makedirs "out/raw_semantic/0001";
      save_annotation (Arr2 [[11; 0]]) "out/raw_semantic/0001" "a" false
        None;
      makedirs "out/raw_panoptic/0001";
      save_annotation (Arr3 [[[11; 255; 255]]]) "out/raw_panoptic/0001" "a"
        false None],
     Returns tt).
Proof. vm_compute. reflexivity. Qed.

Example three_channel_png_rejects_65536 :
  result
    (store_raw_predictions
       (<[TARGET_PANOPTIC_KEY := Arr2 [[11 * 100000 + 65536]]]>
          Sample.semantic_only)
       "a"
       {| dataset_name := "kitti_step"; is_video_dataset := true;
          panoptic_label_divisor := 100000; ignore_label := 255;
          class_has_instances_list := [11; 13]; colormap := "cityscapes" |}
       "out" "0001" "three_channel_png" false)
  = Raises (ValueError_overflow_instance 65535).
Proof. vm_compute. reflexivity. Qed.

Lemma two_channel_numpy_array_unchecked_witness :
  ~ raises_with is_overflow
      (store_raw_predictions
         (<[TARGET_PANOPTIC_KEY := Arr2 [[70000 * 1000 + 999]]]>
            Sample.semantic_only)
         "a" Sample.cityscapes "out" "" "two_channel_numpy_array" false) /\
  store_raw_predictions
    (<[TARGET_PANOPTIC_KEY := Arr2 [[70000 * 1000 + 999]]]>
       Sample.semantic_only)
    "a" Sample.cityscapes "out" "" "two_channel_numpy_array" false
  = ([save_annotation (Arr2 [[11; 0]]) "out/raw_semantic" "a" false None;
      np_save "out/raw_panoptic/a.npy" (Arr3 [[[70000; 999; 0]]])],
     Returns tt).
Proof.
  split; [|vm_compute; reflexivity].
  exact (proj1 (two_channel_numpy_array_unchecked
                  (<[TARGET_PANOPTIC_KEY := Arr2 [[70000 * 1000 + 999]]]>
                     Sample.semantic_only)
                  "a" Sample.cityscapes "out" "" false)).
Defined.

(** The claim C4 fails on a bundle without panoptic prediction: the
    unsupported format string ['foo'] is accepted. *)
Lemma unknown_format_accepted_without_panoptic :
  ("foo" ∉ supported_formats) /\
  store_raw_predictions Sample.semantic_only "a" Sample.coco "out" "" "foo"
    false
  = ([save_annotation (Arr2 [[11; 0]]) "out/raw_semantic" "a" false None],
     Returns tt) /\
  ~ raises_with is_unknown_format
      (store_raw_predictions Sample.semantic_only "a" Sample.coco "out" ""
         "foo" false).
Proof.
  split; [|split].
  - unfold supported_formats. rewrite !not_elem_of_cons.
    repeat split; try discriminate. apply not_elem_of_nil.
  - vm_compute. reflexivity.
  - intros (e & He & _). vm_compute in He. discriminate.
Qed.

Lemma unknown_format_rejected_witness :
  ("foo" ∉ supported_formats) /\
  Sample.predictions !! TARGET_SEMANTIC_KEY = Some (Arr2 [[11; 0]]) /\
  semantic_to_store false Sample.coco [[11; 0]] = Returns [[11; 0]] /\
  Sample.predictions !! TARGET_PANOPTIC_KEY = Some (Arr2 [[11003; 0]]) /\
  predicted_semantic_labels false [[11003; 0]] 256 = Returns [[42; 0]] /\
  store_raw_predictions Sample.predictions "a" Sample.coco "out" "" "foo"
    false
  = ([save_annotation (Arr2 [[11; 0]]) "out/raw_semantic" "a" false None],
     Raises (ValueError_unknown_format "foo")).
Proof.
  assert (Hfoo : "foo" ∉ supported_formats).
  { unfold supported_formats. rewrite !not_elem_of_cons.
    repeat split; try discriminate. apply not_elem_of_nil. }
  repeat (split; [first [exact Hfoo | reflexivity]|]).
  rewrite (unknown_format_rejected Sample.predictions "a" Sample.coco "out"
             "" false "foo" [[11; 0]] [[11; 0]] [[11003; 0]] [[42; 0]]);
    [reflexivity | exact Hfoo | reflexivity..].
Defined.

Lemma format_errors_only_with_panoptic_witness :
  Sample.semantic_only !! TARGET_PANOPTIC_KEY = None /\
  (forall fmt,
      store_raw_predictions Sample.semantic_only "a" Sample.cityscapes "out"
        "" fmt true
      = store_raw_predictions Sample.semantic_only "a" Sample.cityscapes
          "out" "" "foo" true) /\
  ~ raises_with is_format_error
      (store_raw_predictions Sample.semantic_only "a" Sample.cityscapes
         "out" "" "foo" true).
Proof.
  split; [reflexivity|].
  destruct (format_errors_only_with_panoptic Sample.semantic_only "a"
              Sample.cityscapes "out" "" true "foo") as [_ Habsent].
  destruct (Habsent ltac:(reflexivity)) as (Hsame & Hnone & _).
  exact (conj Hsame Hnone).
Defined.

Lemma eval_id_conversion_witness :
  Sample.predictions !! TARGET_SEMANTIC_KEY = Some (Arr2 [[11; 0]]) /\
  str_contains "cityscapes" (dataset_name Sample.coco) = false /\
  store_raw_predictions Sample.predictions "a" Sample.coco "out" ""
    "two_channel_png" true
  = ([], Raises (ValueError_unsupported_dataset "coco_panoptic")) /\
  str_contains "cityscapes" (dataset_name Sample.cityscapes) = true /\
  Forall (fun v => 0 <= v <= 255) (concat [[11; 0]]) /\
  exists rest,
    trace (store_raw_predictions Sample.predictions "a" Sample.cityscapes
             "out" "" "two_channel_png" true)
    = [save_annotation (Arr2 [[24; 7]]) "out/raw_semantic" "a" false None]
        ++ rest.
Proof.
  assert (Hrange : Forall (fun v => 0 <= v <= 255) (concat [[11; 0]]))
    by (simpl; repeat constructor; lia).
  split; [reflexivity|]. split; [reflexivity|]. split.
  { destruct (eval_id_conversion Sample.predictions "a" Sample.coco "out" ""
                "two_channel_png" [[11; 0]]) as [Hcoco _]; [reflexivity|].
    exact (proj1 (Hcoco eq_refl)). }
  split; [reflexivity|]. split; [exact Hrange|].
  destruct (eval_id_conversion Sample.predictions "a" Sample.cityscapes
              "out" "" "two_channel_png" [[11; 0]]) as [_ Hcity];
    [reflexivity|].
  exact (Hcity eq_refl Hrange).
Defined.

Lemma fg_mask_correct_witness :
  _get_fg_mask [[11; 0]] [11; 12] = [[[1]; [0]]] /\
  same_shape (flow_to_color [[[5; 6]; [7; 8]]]) [[11; 0]] /\
  exists masked,
    masked_offset_rgb [[[5; 6]; [7; 8]]] [[11; 0]] [11; 12]
    = Returns masked /\
    pixel masked 0 0 = Some [5; 6; 0] /\
    pixel masked 0 1 = Some [0; 0; 0].
Proof.
  assert (Hshape : same_shape (flow_to_color [[[5; 6]; [7; 8]]]) [[11; 0]])
    by (repeat constructor).
  destruct (fg_mask_correct [[11; 0]] [11; 12]) as [Hmask Hmul].
  split; [exact Hmask|]. split; [exact Hshape|].
  destruct (Hmul [[[5; 6]; [7; 8]]] Hshape) as (masked & Hmasked & Hpx).
  exists masked. split; [exact Hmasked|]. split.
  - exact (Hpx 0%nat 0%nat [5; 6; 0] 11 eq_refl eq_refl).
  - exact (Hpx 0%nat 1%nat [7; 8; 0] 0 eq_refl eq_refl).
Defined.

Lemma semantic_error_mask_witness :
  same_shape [[11; 0]] [[12; 255]] /\
  exists err,
    error_prediction [[11; 0]] [[12; 255]] 255 = Returns err /\
    pixel err 0 0 = Some 255 /\ pixel err 0 1 = Some 0 /\
    last (trace (store_predictions Sample.semantic_only Sample.inputs 7
                   Sample.cityscapes "out"))
    = Some (save_annotation (Arr2 err) "out" "000007_semantic_error" false
              None).
Proof.
  assert (Hshape : same_shape [[11; 0]] [[12; 255]]) by (repeat constructor).
  split; [exact Hshape|].
  destruct (semantic_error_mask Sample.semantic_only Sample.inputs 7
              Sample.cityscapes "out" [[11; 0]] [[12; 255]] Hshape)
    as (err & Herr & Hpx & _ & Hlast).
  exists err. split; [exact Herr|]. split; [|split].
  - exact (proj1 (Hpx 0%nat 0%nat 11 12 eq_refl eq_refl)).
  - exact (proj1 (Hpx 0%nat 1%nat 0 255 eq_refl eq_refl)).
  - apply Hlast; reflexivity.
Defined.

End Runs.

(** * Further properties of the module *)

(** ** [_crop_like] *)

Lemma pixel_None_row {A} (a : list (list A)) (r c : nat) :
  (length a <= r)%nat -> pixel a r c = None.
Proof. intros Hr. unfold pixel. by rewrite lookup_ge_None_2. Qed.

(** X1. Cropping [tensor_to_crop] like [crop_to_tensor], of shape [h, w], keeps
    the pixels at rows below [h] and columns below [w] and no other; it never
    adds rows, and it changes nothing in a tensor that has already the shape
    of a rectangular [crop_to_tensor]. *)
Theorem crop_like_pixels {A B} (tensor_to_crop : list (list A))
  (crop_to_tensor : list (list B)) :
  let (h, w) := shape2 crop_to_tensor in
  (forall r c,
      pixel (_crop_like tensor_to_crop crop_to_tensor) r c
      = if decide ((r < h)%nat /\ (c < w)%nat) then pixel tensor_to_crop r c
        else None) /\
  (length (_crop_like tensor_to_crop crop_to_tensor) <= h)%nat /\
  (rectangular crop_to_tensor -> same_shape tensor_to_crop crop_to_tensor ->
   _crop_like tensor_to_crop crop_to_tensor = tensor_to_crop).
Proof.
  unfold _crop_like, rectangular. simpl.
  set (h := length crop_to_tensor). set (w := length (hd [] crop_to_tensor)).
  split; [|split].
  - intros r c. unfold pixel. case_decide as Hrc.
    + destruct Hrc as [Hr Hc]. rewrite lookup_take_lt by done.
      rewrite list_lookup_fmap.
      destruct (tensor_to_crop !! r) as [row|]; simpl; [|done].
      by apply lookup_take_lt.
    + destruct (decide (r < h)%nat) as [Hr|Hr].
      * rewrite lookup_take_lt by done. rewrite list_lookup_fmap.
        destruct (tensor_to_crop !! r) as [row|]; simpl; [|done].
        apply lookup_take_ge. lia.
      * rewrite lookup_take_ge by lia. done.
  - rewrite length_take. lia.
  - intros Hrect Hshape. subst h.
    rewrite take_ge
      by (rewrite length_map, (Forall2_length _ _ _ Hshape); done).
    clear -Hrect Hshape. revert Hrect. generalize w. clear w.
    induction Hshape as [|ra rb a b Hlen _ IH]; intros w Hrect; simpl; [done|].
    inversion Hrect as [|? ? Hw Hrest]; subst. f_equal; [|by apply IH].
    apply take_ge. lia.
Qed.

(** ** More on the conversion to eval ids *)

Lemma nth_table_bound (n : nat) : 0 <= nth n to_eval_id_map 0 <= 33.
Proof.
  pose proof (table_entry_bound (Z.of_nat n)) as Hb. unfold table_entry in Hb.
  by rewrite Nat2Z.id in Hb.
Qed.

Lemma np_getitem_table_wrap (v : Z) :
  -256 <= v <= 255 ->
  np_getitem to_eval_id_map v = Returns (table_entry (v `mod` 256)).
Proof.
  intros Hv. unfold np_getitem, table_entry. rewrite to_eval_id_map_length.
  change (Z.of_nat 256) with 256.
  destruct (Z.leb_spec 0 v) as [Hpos|Hneg]; cbn [andb].
  - replace (v <? 256) with true by (symmetry; apply Z.ltb_lt; lia).
    by rewrite Z.mod_small by lia.
  - rewrite (proj2 (Z.leb_le _ v)) by lia.
    replace (v <? 0) with true by (symmetry; apply Z.ltb_lt; lia).
    cbn [andb]. do 3 f_equal.
    rewrite <- (Z.mod_add v 1 256) by lia. rewrite Z.mod_small by lia. lia.
Qed.

Lemma np_getitem_table_outside (v : Z) :
  v < -256 \/ 255 < v ->
  np_getitem to_eval_id_map v = Raises (IndexError v 256).
Proof.
  intros Hv. unfold np_getitem. rewrite to_eval_id_map_length.
  change (Z.of_nat 256) with 256.
  destruct Hv as [Hv|Hv].
  - replace (0 <=? v) with false by (symmetry; apply Z.leb_gt; lia).
    rewrite (proj2 (Z.leb_gt _ v)) by lia. done.
  - by apply np_getitem_table_out; lia.
Qed.

Lemma omap_Returns_inv {A B} (f : A -> outcome B) (l : list A) (l' : list B) :
  omap f l = Returns l' -> forall x, x ∈ l -> exists y, f x = Returns y.
Proof.
  revert l'. induction l as [|a l IH]; intros l' Hl x Hx.
  - by apply elem_of_nil in Hx.
  - simpl in Hl. destruct (f a) as [y|e] eqn:Ha; simpl in Hl; [|done].
    destruct (omap f l) as [ys|e]; simpl in Hl; [|done].
    apply elem_of_cons in Hx as [->|Hx]; [eauto|]. by eapply IH.
Qed.

(** X2. The conversion returns exactly when every id lies in [-256, 255]: an id
    from -256 to -1 is not rejected but counted from the end of the table, so
    ids from -236 to -1 become eval id 0; any other id raises [IndexError]. *)
Theorem convert_returns_iff (prediction : array2) :
  ((exists converted,
       _convert_cityscapes_train_id_to_eval_id prediction = Returns converted)
   <-> Forall (fun v => -256 <= v <= 255) (concat prediction)) /\
  (Forall (fun v => -256 <= v <= 255) (concat prediction) ->
   _convert_cityscapes_train_id_to_eval_id prediction
   = Returns (map2 (fun v => nth (Z.to_nat (v `mod` 256)) to_eval_id_map 0)
                prediction)) /\
  (forall v, -236 <= v <= -1 ->
             np_getitem to_eval_id_map v = Returns 0) /\
  (forall e,
      _convert_cityscapes_train_id_to_eval_id prediction = Raises e ->
      exists v, v ∈ concat prediction /\ (v < -256 \/ 255 < v) /\
                e = IndexError v 256).
Proof.
  assert (Hin : Forall (fun v => -256 <= v <= 255) (concat prediction) ->
                _convert_cityscapes_train_id_to_eval_id prediction
                = Returns (map2 (fun v => table_entry (v `mod` 256))
                             prediction)).
  { rewrite Forall_forall. intros Hv. apply omap2_Returns.
    intros v Hvin. by apply np_getitem_table_wrap, Hv. }
  split; [split|split; [exact Hin|split]].
  - intros [converted Hc]. apply Forall_forall. intros v Hv.
    apply elem_of_concat in Hv as (row & Hrow & Hv).
    destruct (omap_Returns_inv _ _ _ Hc row Hrow) as [row' Hrow'].
    destruct (omap_Returns_inv _ _ _ Hrow' v Hv) as [y Hy].
    destruct (decide (-256 <= v <= 255)) as [|Hout]; [done|].
    rewrite np_getitem_table_outside in Hy by lia. done.
  - intros Hv. eexists. by apply Hin.
  - intros v Hv. rewrite np_getitem_table_wrap by lia. f_equal.
    apply table_entry_padding.
    rewrite <- (Z.mod_add v 1 256) by lia. rewrite Z.mod_small by lia. lia.
  - intros e (row & Hrow & Hr)%omap_Raises.
    apply omap_Raises in Hr as (v & Hv & Hr).
    exists v. split; [apply elem_of_concat; eauto|].
    destruct (decide (-256 <= v <= 255)) as [Hvin|Hout].
    + by rewrite np_getitem_table_wrap in Hr.
    + rewrite np_getitem_table_outside in Hr by lia.
      split; [lia|congruence].
Qed.

Lemma np_getitem_table_value (v y : Z) :
  np_getitem to_eval_id_map v = Returns y -> 0 <= y <= 33.
Proof.
  unfold np_getitem. repeat case_match; try done; intros [= <-];
    apply nth_table_bound.
Qed.

Lemma convert_values (prediction converted : array2) :
  _convert_cityscapes_train_id_to_eval_id prediction = Returns converted ->
  forall y, y ∈ concat converted -> 0 <= y <= 33.
Proof.
  intros Hc y Hy. apply (omap2_inv _ 0) in Hc. subst converted.
  rewrite concat_map2 in Hy. apply list_elem_of_fmap in Hy as (v & -> & _).
  destruct (np_getitem to_eval_id_map v) as [y|e] eqn:Hv; [|lia].
  by eapply np_getitem_table_value.
Qed.

(** ** More on [store_raw_predictions] *)

Lemma np_max_elem (a : array2) (m : Z) :
  np_max a = Returns m -> m ∈ concat a.
Proof.
  unfold np_max. destruct (concat a) as [|x xs]; [done|].
  intros [= <-]. apply foldl_max_elem.
Qed.

Lemma convert_Raises_outside (prediction : array2) :
  Exists (fun v => v < -256 \/ 255 < v) (concat prediction) ->
  exists v, (v < -256 \/ 255 < v) /\
            _convert_cityscapes_train_id_to_eval_id prediction
            = Raises (IndexError v 256).
Proof.
  intros (v & Hv & Hout)%Exists_exists.
  destruct (_convert_cityscapes_train_id_to_eval_id prediction)
    as [converted|e] eqn:Hc.
  - apply elem_of_concat in Hv as (row & Hrow & Hv).
    destruct (omap_Returns_inv _ _ _ Hc row Hrow) as [row' Hrow'].
    destruct (omap_Returns_inv _ _ _ Hrow' v Hv) as [y Hy].
    by rewrite np_getitem_table_outside in Hy.
  - apply omap_Raises in Hc as (row & _ & Hr).
    apply omap_Raises in Hr as (w & _ & Hw).
    destruct (decide (-256 <= w <= 255)) as [Hin|Hw'].
    + by rewrite np_getitem_table_wrap in Hw.
    + rewrite np_getitem_table_outside in Hw by lia.
      exists w. split; [lia|congruence].
Qed.

Section StoreRawPredictionsMore.
Context `{Common} `{OsPath}.

Variables (predictions : gmap string ndarray) (image_filename : string)
  (dataset_info : DatasetDescriptor) (save_dir sequence : string).

Let divisor := panoptic_label_divisor dataset_info.
Let run (raw_panoptic_format : string) (convert_to_eval : bool) : io unit :=
  store_raw_predictions predictions image_filename dataset_info save_dir
    sequence raw_panoptic_format convert_to_eval.
Let semantic_events (stored : array2) : list event :=
  raw_semantic_events dataset_info save_dir sequence image_filename stored.
Let panoptic_folder_events : list event :=
  output_folder_events dataset_info save_dir "raw_panoptic" sequence.

Lemma store_raw_panoptic_overflow_semantic fmt zeros sl il folder fname :
  result (store_raw_panoptic fmt zeros sl il folder fname)
  = Raises ValueError_overflow_semantic ->
  exists ms, np_max sl = Returns ms /\ 255 < ms.
Proof.
  unfold store_raw_panoptic.
  destruct (String.eqb fmt "two_channel_png").
  { destruct (np_max sl) as [ms|e1] eqn:Hms;
      [|by apply np_max_Raises in Hms as ->].
    rewrite bind_Returns. destruct (Z.ltb_spec 255 ms); [eauto|].
    destruct (np_max il) as [mi|e2] eqn:Hmi;
      [|by apply np_max_Raises in Hmi as ->].
    rewrite bind_Returns. by destruct (255 <? mi). }
  destruct (String.eqb fmt "three_channel_png").
  { destruct (np_max sl) as [ms|e1] eqn:Hms;
      [|by apply np_max_Raises in Hms as ->].
    rewrite bind_Returns. destruct (Z.ltb_spec 255 ms); [eauto|].
    destruct (np_max il) as [mi|e2] eqn:Hmi;
      [|by apply np_max_Raises in Hmi as ->].
    rewrite bind_Returns. by destruct (65535 <? mi). }
  by destruct (String.eqb fmt "two_channel_numpy_array").
Qed.

(** X3. With [convert_to_eval] set, the semantic ids that reach the overflow
    check are table entries, at most 33: the semantic overflow error is never
    raised, for any bundle and any format. *)
Theorem eval_ids_never_overflow_semantic fmt :
  result (run fmt true) <> Raises ValueError_overflow_semantic.
Proof.
  intros Hres.
  apply format_error_origin in Hres
      as (sem & stored & pan & sl & _ & _ & _ & Hsl & Hres & _); [|done].
  apply store_raw_panoptic_overflow_semantic in Hres as (ms & Hms & Hlt).
  apply np_max_elem in Hms.
  pose proof (convert_values _ _ Hsl ms Hms). lia.
Qed.

(** X4. Without the semantic prediction the call raises [KeyError] before it
    writes anything, whatever the format, the flag and the dataset: the key is
    read before the dataset name is looked at. *)
Theorem missing_semantic_key fmt convert_to_eval :
  predictions !! TARGET_SEMANTIC_KEY = None ->
  run fmt convert_to_eval = ([], Raises (KeyError TARGET_SEMANTIC_KEY)).
Proof.
  intros Hnone. unfold run. rewrite store_raw_predictions_stages.
  unfold dict_getitem. by rewrite Hnone.
Qed.

(** X5. On a panoptic map without pixels the two png formats fail in [np.max]
    with the zero-size [ValueError], which is not an overflow error, after the
    raw semantic prediction has been written; the numpy format returns. *)
Theorem empty_panoptic_map convert_to_eval sem stored pan :
  predictions !! TARGET_SEMANTIC_KEY = Some (Arr2 sem) ->
  semantic_to_store convert_to_eval dataset_info sem = Returns stored ->
  predictions !! TARGET_PANOPTIC_KEY = Some (Arr2 pan) ->
  concat pan = [] ->
  run "two_channel_png" convert_to_eval
  = (semantic_events stored ++ panoptic_folder_events,
     Raises ValueError_zero_size_reduction) /\
  run "three_channel_png" convert_to_eval
  = (semantic_events stored ++ panoptic_folder_events,
     Raises ValueError_zero_size_reduction) /\
  result (run "two_channel_numpy_array" convert_to_eval) = Returns tt.
Proof.
  intros Hsem Hstored Hpan Hnil.
  assert (exists sl, predicted_semantic_labels convert_to_eval pan divisor
                     = Returns sl /\ concat sl = []) as (sl & Hsl & Hslnil).
  { unfold predicted_semantic_labels. destruct convert_to_eval.
    - exists (map2 (fun _ => 0) (map2 (fun x => np_floor_divide x divisor) pan)).
      split; [|by rewrite !concat_map2, Hnil].
      apply omap2_Returns. intros x Hx.
      rewrite concat_map2, Hnil in Hx. by apply elem_of_nil in Hx.
    - eexists. split; [done|]. by rewrite concat_map2, Hnil. }
  unfold run.
  rewrite !(store_raw_predictions_dispatch _ _ _ _ _ _ _ _ _ _ _
              Hsem Hstored Hpan Hsl).
  unfold store_raw_panoptic, np_max. simpl String.eqb. cbv iota.
  rewrite Hslnil. simpl. by rewrite app_nil_r.
Qed.

Lemma store_raw_panoptic_artifacts fmt zeros sl il folder fname :
  Forall (fun ev => is_artifact ev = true)
    (trace (store_raw_panoptic fmt zeros sl il folder fname)).
Proof.
  unfold store_raw_panoptic.
  destruct (String.eqb fmt "two_channel_png").
  { destruct (np_max sl) as [ms|e1]; [|by constructor].
    rewrite bind_Returns. destruct (255 <? ms); [by constructor|].
    destruct (np_max il) as [mi|e2]; [|by constructor].
    rewrite bind_Returns. destruct (255 <? mi); by repeat constructor. }
  destruct (String.eqb fmt "three_channel_png").
  { destruct (np_max sl) as [ms|e1]; [|by constructor].
    rewrite bind_Returns. destruct (255 <? ms); [by constructor|].
    destruct (np_max il) as [mi|e2]; [|by constructor].
    rewrite bind_Returns. destruct (65535 <? mi); by repeat constructor. }
  destruct (String.eqb fmt "two_channel_numpy_array"); by repeat constructor.
Qed.

(** X6. For a dataset that is not a video dataset no directory is ever created:
    every recorded effect writes a file.  For a video dataset the first
    effect, once the semantic stage has returned, creates the folder
    [<save_dir>/raw_semantic/<sequence>], and the raw semantic prediction is
    written into it. *)
Theorem directories_only_for_video fmt convert_to_eval :
  (is_video_dataset dataset_info = false ->
   Forall (fun ev => is_artifact ev = true) (trace (run fmt convert_to_eval)))
  /\
  (is_video_dataset dataset_info = true ->
   forall sem stored,
     predictions !! TARGET_SEMANTIC_KEY = Some (Arr2 sem) ->
     semantic_to_store convert_to_eval dataset_info sem = Returns stored ->
     let folder := path_join (path_join save_dir "raw_semantic") sequence in
     exists rest,
       trace (run fmt convert_to_eval)
       = makedirs folder
           :: save_annotation (Arr2 stored) folder
                (splitext_root image_filename) false None
           :: rest).
Proof.
  unfold run. rewrite store_raw_predictions_stages. split.
  - intros Hvideo.
    assert (Hsem : forall stored,
               Forall (fun ev => is_artifact ev = true)
                 (raw_semantic_events dataset_info save_dir sequence
                    image_filename stored)).
    { intros stored. unfold raw_semantic_events, output_folder_events.
      rewrite Hvideo. by repeat constructor. }
    destruct (obind _ _) as [sem|e]; [|by constructor].
    destruct (semantic_to_store _ _ _) as [stored|e]; [|by constructor].
    simpl.
    destruct (predictions !! TARGET_PANOPTIC_KEY) as [[pan|pan]|]; simpl;
      [|by apply Hsem..].
    destruct (predicted_semantic_labels _ _ _) as [sl|e]; simpl;
      [|by apply Hsem].
    rewrite !Forall_app. split; [by apply Hsem|]. split.
    + unfold output_folder_events. rewrite Hvideo. constructor.
    + apply store_raw_panoptic_artifacts.
  - intros Hvideo sem stored Hsem Hstored. unfold dict_getitem.
    rewrite Hsem. simpl. rewrite Hstored.
    unfold raw_semantic_events, output_folder_events, output_folder.
    rewrite Hvideo. simpl.
    destruct (predictions !! TARGET_PANOPTIC_KEY) as [[pan|pan]|]; simpl;
      [|eauto..].
    destruct (predicted_semantic_labels _ _ _) as [sl|e]; simpl; eauto.
Qed.

(** X7. With [convert_to_eval] set, a panoptic map with a decoded semantic id
    outside [-256, 255] ends every format, the numpy one included, in
    [IndexError] at the table lookup, after the raw semantic prediction has
    been written and before any panoptic folder is created. *)
Theorem eval_conversion_rejects_panoptic_ids fmt sem stored pan :
  predictions !! TARGET_SEMANTIC_KEY = Some (Arr2 sem) ->
  semantic_to_store true dataset_info sem = Returns stored ->
  predictions !! TARGET_PANOPTIC_KEY = Some (Arr2 pan) ->
  Exists (fun x => let s := np_floor_divide x divisor in s < -256 \/ 255 < s)
    (concat pan) ->
  exists s, (s < -256 \/ 255 < s) /\
            run fmt true = (semantic_events stored, Raises (IndexError s 256)).
Proof.
  intros Hsem Hstored Hpan Hout.
  destruct (convert_Raises_outside
              (map2 (fun x => np_floor_divide x divisor) pan))
    as (s & Hs & Hconv).
  { rewrite concat_map2. by apply Exists_fmap. }
  exists s. split; [done|]. unfold run.
  rewrite store_raw_predictions_stages. unfold dict_getitem.
  rewrite Hsem. cbn [obind label_map]. rewrite Hstored, Hpan.
  unfold predicted_semantic_labels. fold divisor. by rewrite Hconv.
Qed.

End StoreRawPredictionsMore.

(** ** What the formats store *)

Lemma np_max_upper (a : array2) (m : Z) :
  np_max a = Returns m -> forall x, x ∈ concat a -> x <= m.
Proof.
  unfold np_max. destruct (concat a) as [|y ys]; [done|].
  intros [= <-]. apply foldl_max_upper.
Qed.

Lemma Forall_map2 {A B} (P : B -> Prop) (F : A -> B) (a : list (list A)) :
  (forall x, x ∈ concat a -> P (F x)) -> Forall (Forall P) (map2 F a).
Proof.
  intros HP. unfold map2. apply Forall_fmap, Forall_forall. intros row Hrow.
  apply Forall_fmap, Forall_forall. intros x Hx. apply HP.
  apply elem_of_concat. eauto.
Qed.

Lemma remainder_range (x d : Z) : 0 < d -> 0 <= np_remainder x d < d.
Proof.
  intros Hd. unfold np_remainder. destruct (Z.eqb_spec d 0); [lia|].
  by apply Z.mod_pos_bound.
Qed.

(** X8. Decoding loses nothing for a positive divisor: the two decoded ids
    of a pixel recombine to its panoptic id, negative ids included, and the
    instance id lies between 0 and the divisor; for the divisor 0 both decoded
    ids are 0 whatever the panoptic id. *)
Theorem decode_recombines (panoptic_prediction : array2) (d : Z) (r c : nat)
  (x : Z) :
  pixel panoptic_prediction r c = Some x ->
  exists s i,
    pixel (map2 (fun x => np_floor_divide x d) panoptic_prediction) r c
    = Some s /\
    pixel (predicted_instance_labels panoptic_prediction d) r c = Some i /\
    predicted_semantic_labels false panoptic_prediction d
    = Returns (map2 (fun x => np_floor_divide x d) panoptic_prediction) /\
    (0 < d -> s * d + i = x /\ 0 <= i < d) /\
    (d = 0 -> s = 0 /\ i = 0).
Proof.
  intros Hpx. exists (np_floor_divide x d), (np_remainder x d).
  unfold predicted_instance_labels. rewrite !pixel_map2, Hpx.
  repeat (split; [done|]). unfold np_floor_divide, np_remainder.
  destruct (Z.eqb_spec d 0) as [->|Hd].
  - split; [lia|done].
  - split; [|done]. intros Hpos. split.
    + rewrite (Z.div_mod x d) at 3 by done. lia.
    + by apply Z.mod_pos_bound.
Qed.

Section StoredChannels.
Context `{Common} `{OsPath}.

Variables (predictions : gmap string ndarray) (image_filename : string)
  (dataset_info : DatasetDescriptor) (save_dir sequence : string)
  (convert_to_eval : bool).

Let divisor := panoptic_label_divisor dataset_info.
Let run (raw_panoptic_format : string) : io unit :=
  store_raw_predictions predictions image_filename dataset_info save_dir
    sequence raw_panoptic_format convert_to_eval.
Let panoptic_folder :=
  output_folder dataset_info save_dir "raw_panoptic" sequence.

(** What a png format has saved when it returns, as a function of the
    panoptic ids. *)
Lemma png_saved (three : bool) sem stored pan sl :
  predictions !! TARGET_SEMANTIC_KEY = Some (Arr2 sem) ->
  semantic_to_store convert_to_eval dataset_info sem = Returns stored ->
  predictions !! TARGET_PANOPTIC_KEY = Some (Arr2 pan) ->
  rectangular pan ->
  predicted_semantic_labels convert_to_eval pan divisor = Returns sl ->
  result (run (if three then "three_channel_png" else "two_channel_png"))
  = Returns tt ->
  exists f : Z -> Z,
    sl = map2 f pan /\
    (forall x, x ∈ concat pan ->
               f x <= 255 /\
               np_remainder x divisor <= (if three then 65535 else 255)) /\
    last (trace (run (if three then "three_channel_png"
                      else "two_channel_png")))
    = Some (save_annotation
              (Arr3 (map2 (fun x =>
                             let i := np_remainder x divisor in
                             if three then [f x; i `div` 256; i `mod` 256]
                             else [f x; i; 0]) pan))
              panoptic_folder (splitext_root image_filename) false None).
Proof.
  intros Hsem Hstored Hpan Hrect Hsl. unfold run.
  rewrite (store_raw_predictions_dispatch _ _ _ _ _ _ _ _ _ _ _
             Hsem Hstored Hpan Hsl).
  destruct (predicted_semantic_labels_map2 _ _ _ _ Hsl) as [f ->].
  fold divisor panoptic_folder.
  set (il := predicted_instance_labels pan divisor).
  destruct (np_max (map2 f pan)) as [ms|e1] eqn:Hms.
  2:{ destruct three; unfold store_raw_panoptic; simpl String.eqb; cbv iota;
        by rewrite Hms. }
  destruct (np_max il) as [mi|e2] eqn:Hmi.
  2:{ destruct three; unfold store_raw_panoptic; simpl String.eqb; cbv iota;
        rewrite Hms, bind_Returns; destruct (255 <? ms); try done;
        by rewrite Hmi. }
  assert (Hbound : forall bound, ms <= 255 -> mi <= bound ->
            forall x, x ∈ concat pan ->
                      f x <= 255 /\ np_remainder x divisor <= bound).
  { intros bound Hs Hi x Hx. split.
    - pose proof (np_max_upper _ _ Hms (f x)) as Hle.
      rewrite concat_map2 in Hle. specialize (Hle (list_elem_of_fmap_2 f _ _ Hx)).
      lia.
    - pose proof (np_max_upper _ _ Hmi (np_remainder x divisor)) as Hle.
      unfold il, predicted_instance_labels in Hle.
      rewrite concat_map2 in Hle.
      specialize (Hle (list_elem_of_fmap_2 _ _ _ Hx)). lia. }
  destruct three.
  - rewrite (store_raw_panoptic_three_channel_png _ _ _ _ _ _ _ Hms Hmi).
    destruct (Z.ltb_spec 255 ms); [done|].
    destruct (Z.ltb_spec 65535 mi); [done|]. intros _. cbn [trace fst].
    exists f. split; [done|]. split; [by apply Hbound|].
    rewrite last_events. do 2 f_equal. unfold il, predicted_instance_labels.
    rewrite np_zeros3_rectangular by done.
    rewrite !map2_map2, !set_channel_map2. done.
  - rewrite (store_raw_panoptic_two_channel_png _ _ _ _ _ _ _ Hms Hmi).
    destruct (Z.ltb_spec 255 ms); [done|].
    destruct (Z.ltb_spec 255 mi); [done|]. intros _. cbn [trace fst].
    exists f. split; [done|]. split; [by apply Hbound|].
    rewrite last_events. do 2 f_equal. unfold il, predicted_instance_labels.
    rewrite np_zeros3_rectangular by done.
    rewrite !set_channel_map2. done.
Qed.

(** X9. The three-channel png is lossless: when the call returns, for a
    positive divisor, the two instance channels of every saved pixel lie in
    [0, 255] and [channel 1 * 256 + channel 2] is the instance id of the
    pixel. *)
Theorem three_channel_png_lossless sem stored pan sl :
  predictions !! TARGET_SEMANTIC_KEY = Some (Arr2 sem) ->
  semantic_to_store convert_to_eval dataset_info sem = Returns stored ->
  predictions !! TARGET_PANOPTIC_KEY = Some (Arr2 pan) ->
  rectangular pan ->
  predicted_semantic_labels convert_to_eval pan divisor = Returns sl ->
  0 < divisor ->
  result (run "three_channel_png") = Returns tt ->
  exists saved,
    last (trace (run "three_channel_png"))
    = Some (save_annotation (Arr3 saved) panoptic_folder
              (splitext_root image_filename) false None) /\
    forall r c i,
      pixel (predicted_instance_labels pan divisor) r c = Some i ->
      exists s hi lo,
        pixel saved r c = Some [s; hi; lo] /\ pixel sl r c = Some s /\
        0 <= hi <= 255 /\ 0 <= lo <= 255 /\ hi * 256 + lo = i.
Proof.
  intros Hsem Hstored Hpan Hrect Hsl Hd Hres.
  destruct (png_saved true _ _ _ _ Hsem Hstored Hpan Hrect Hsl Hres)
    as (f & -> & Hbound & Hlast).
  eexists. split; [exact Hlast|].
  intros r c i. unfold predicted_instance_labels. rewrite !pixel_map2.
  destruct (pixel pan r c) as [x|] eqn:Hx; [|done]. simpl. intros [= <-].
  eexists _, _, _. split; [done|]. split; [done|].
  destruct (Hbound x (pixel_elem_of _ _ _ _ Hx)) as [_ Hi].
  pose proof (remainder_range x divisor Hd) as Hi'.
  set (i := np_remainder x divisor) in *.
  pose proof (Z.mod_pos_bound i 256 ltac:(lia)).
  pose proof (Z.div_mod i 256 ltac:(lia)).
  assert (0 <= i `div` 256) by (apply Z.div_pos; lia).
  assert (i `div` 256 < 256) by (apply Z.div_lt_upper_bound; lia).
  lia.
Qed.

(** X10. Both png formats hand 8-bit values to the writer: when the call
    returns, for a positive divisor and panoptic ids that are not negative,
    every channel of every saved pixel lies in [0, 255]. *)
Theorem png_channels_fit_8_bits (three : bool) sem stored pan sl :
  predictions !! TARGET_SEMANTIC_KEY = Some (Arr2 sem) ->
  semantic_to_store convert_to_eval dataset_info sem = Returns stored ->
  predictions !! TARGET_PANOPTIC_KEY = Some (Arr2 pan) ->
  rectangular pan ->
  predicted_semantic_labels convert_to_eval pan divisor = Returns sl ->
  0 < divisor ->
  Forall (fun x => 0 <= x) (concat pan) ->
  let fmt := if three then "three_channel_png" else "two_channel_png" in
  result (run fmt) = Returns tt ->
  exists saved,
    last (trace (run fmt))
    = Some (save_annotation (Arr3 saved) panoptic_folder
              (splitext_root image_filename) false None) /\
    Forall (Forall (Forall (fun v => 0 <= v <= 255))) saved.
Proof.
  intros Hsem Hstored Hpan Hrect Hsl Hd Hpos fmt Hres.
  destruct (png_saved three _ _ _ _ Hsem Hstored Hpan Hrect Hsl Hres)
    as (f & Hf & Hbound & Hlast).
  eexists. split; [exact Hlast|].
  apply Forall_map2. intros x Hx.
  destruct (Hbound x Hx) as [Hs Hi].
  pose proof (remainder_range x divisor Hd) as Hi'.
  assert (Hs0 : 0 <= f x).
  { assert (Hfx : f x ∈ concat sl).
    { rewrite Hf, concat_map2. by apply list_elem_of_fmap_2. }
    unfold predicted_semantic_labels in Hsl. destruct convert_to_eval.
    - pose proof (convert_values _ _ Hsl _ Hfx). lia.
    - injection Hsl as <-. rewrite concat_map2 in Hfx.
      apply list_elem_of_fmap in Hfx as (y & -> & Hy).
      rewrite Forall_forall in Hpos. specialize (Hpos y Hy).
      unfold np_floor_divide. destruct (Z.eqb_spec divisor 0); [lia|].
      apply Z.div_pos; lia. }
  set (i := np_remainder x divisor) in *. simpl. destruct three.
  - pose proof (Z.mod_pos_bound i 256 ltac:(lia)).
    assert (0 <= i `div` 256) by (apply Z.div_pos; lia).
    assert (i `div` 256 < 256) by (apply Z.div_lt_upper_bound; lia).
    repeat constructor; lia.
  - repeat constructor; lia.
Qed.

(** X11. The formats are ordered by what they accept: whatever the two-channel
    png accepts the three-channel png accepts, and whatever the three-channel
    png accepts the numpy format accepts. *)
Theorem formats_accept_more :
  (result (run "two_channel_png") = Returns tt ->
   result (run "three_channel_png") = Returns tt) /\
  (result (run "three_channel_png") = Returns tt ->
   result (run "two_channel_numpy_array") = Returns tt).
Proof.
  unfold run. rewrite !store_raw_predictions_stages.
  destruct (obind _ _) as [sem|e]; [|done].
  destruct (semantic_to_store _ _ _) as [stored|e]; [|done]. simpl.
  destruct (predictions !! TARGET_PANOPTIC_KEY) as [[pan|pan]|]; [|done..].
  destruct (predicted_semantic_labels _ _ _) as [sl|e]; [|done]. simpl.
  unfold store_raw_panoptic. simpl String.eqb. cbv iota.
  destruct (np_max sl) as [ms|e1]; [|done]. rewrite !bind_Returns.
  destruct (255 <? ms); [done|].
  destruct (np_max _) as [mi|e2]; [|done]. rewrite !bind_Returns.
  destruct (Z.ltb_spec 255 mi), (Z.ltb_spec 65535 mi); try done; lia.
Qed.

End StoredChannels.

(** ** More on the foreground mask *)

(** X13. The mask has the shape of the label map with one channel of value 0 or
    1 per pixel, is 0 everywhere for an empty thing list, and depends on the
    thing list only through the set of its classes: order and repetition do
    not matter. *)
Theorem fg_mask_thing_set (label_map : array2) (things things' : list Z) :
  (forall class_id, class_id ∈ things <-> class_id ∈ things') ->
  _get_fg_mask label_map things = _get_fg_mask label_map things' /\
  same_shape label_map (_get_fg_mask label_map things) /\
  Forall (Forall (fun px => px = [0] \/ px = [1]))
    (_get_fg_mask label_map things) /\
  _get_fg_mask label_map [] = map2 (fun _ => [0]) label_map.
Proof.
  intros Hsame. rewrite !get_fg_mask_map2. split; [|split; [|split]].
  - apply map2_ext_in. intros x _. by rewrite (bool_decide_ext _ _ (Hsame x)).
  - apply same_shape_refl_map2.
  - apply Forall_map2. intros x _. destruct (bool_decide _); auto.
  - apply map2_ext_in. intros x _. rewrite bool_decide_eq_false_2; [done|].
    apply not_elem_of_nil.
Qed.

Section MaskedOffsets.
Context `{VisUtils}.

(** X14. When the flow image and the label map differ in height and neither has
    height one, the product with the mask cannot be broadcast and raises. *)
Theorem masked_offset_shape_mismatch (center_offset : array3)
  (label_map : array2) (thing_list : list Z) :
  length (flow_to_color center_offset) <> length label_map ->
  length (flow_to_color center_offset) <> 1%nat ->
  length label_map <> 1%nat ->
  masked_offset_rgb center_offset label_map thing_list
  = Raises ValueError_broadcast.
Proof.
  intros Hne Hrgb Hlm. unfold masked_offset_rgb. rewrite get_fg_mask_map2.
  unfold np_multiply, broadcast at 1, map2. rewrite length_map.
  rewrite (proj2 (Nat.eqb_neq _ _) Hne).
  destruct (flow_to_color center_offset) as [|row1 [|row2 rgb]];
    destruct label_map as [|lrow1 [|lrow2 lm]]; simpl in *; done.
Qed.

(** X15. Cropping makes the product well defined: for a renderer that keeps
    height and width, an offset map at least as large as a rectangular
    semantic prediction, cropped like it, is masked without error. *)
Theorem crop_then_mask_returns (offset_map : array3) (semantic : array2)
  (thing_list : list Z) :
  (forall flow : array3, same_shape (flow_to_color flow) flow) ->
  rectangular semantic ->
  (length semantic <= length offset_map)%nat ->
  Forall (fun row => (snd (shape2 semantic) <= length row)%nat) offset_map ->
  exists masked,
    masked_offset_rgb (_crop_like offset_map semantic) semantic thing_list
    = Returns masked /\
    same_shape masked semantic.
Proof.
  intros Hflow Hrect Hrows Hcols.
  assert (Hcrop : same_shape (_crop_like offset_map semantic) semantic).
  { unfold _crop_like, rectangular, same_shape in *. simpl in *.
    revert Hrect Hcols. generalize (length (hd [] semantic)). intros w.
    revert offset_map Hrows.
    induction semantic as [|srow semantic' IH]; intros [|orow offset_map'];
      simpl; intros Hrows Hrect Hcols; [constructor | constructor | lia |].
    inversion Hrect; subst. inversion Hcols; subst.
    constructor; [rewrite length_take; lia|]. apply IH; [lia|done..]. }
  assert (Hshape : same_shape (flow_to_color (_crop_like offset_map semantic))
                     semantic).
  { specialize (Hflow (_crop_like offset_map semantic)).
    unfold same_shape in *. clear -Hflow Hcrop.
    revert Hflow Hcrop. generalize (_crop_like offset_map semantic).
    generalize (flow_to_color (_crop_like offset_map semantic)).
    intros rgb crop Hab. revert semantic.
    induction Hab as [|ra rb rgb' crop' Hlen _ IH]; intros semantic Hbs;
      inversion Hbs; subst; constructor; [congruence|auto]. }
  unfold masked_offset_rgb. rewrite get_fg_mask_map2.
  rewrite (np_multiply_mask _ _
             (fun x => if bool_decide (x ∈ thing_list) then 1 else 0))
    by done.
  eexists. split; [done|]. clear -Hshape. unfold same_shape in *.
  induction Hshape as [|ra rb a b Hlen _ IH]; simpl; constructor; [|done].
  rewrite length_zip_with. lia.
Qed.

End MaskedOffsets.

(** ** More on [store_predictions] *)

Lemma string_app_inj (p a b : string) : p +:+ a = p +:+ b -> a = b.
Proof. induction p as [|ch p IH]; simpl; [done|]. intros [= Heq]. auto. Qed.

Lemma Forall_trace_bind {A B} (P : event -> Prop) (m : io A) (k : A -> io B) :
  Forall P (trace m) -> (forall a, Forall P (trace (k a))) ->
  Forall P (trace (bind m k)).
Proof.
  intros Hm Hk. rewrite trace_bind. apply Forall_app. split; [done|].
  destruct (result m); [apply Hk | constructor].
Qed.

Ltac image_writes :=
  repeat first
    [ apply Forall_trace_bind; [|intros ?]
    | apply Forall_nil_2
    | apply Forall_singleton; reflexivity ].

Section StorePredictionsMore.
Context `{Common} `{OsPath} `{VisUtils}.

Variables (predictions inputs : gmap string ndarray) (image_id : Z)
  (dataset_info : DatasetDescriptor) (save_dir : string).

Let run : io unit :=
  store_predictions predictions inputs image_id dataset_info save_dir.
Let colormap_name := Some (colormap dataset_info).

(** X16. For one image the eleven file names are pairwise distinct: no artifact
    of [store_predictions] overwrites another one of the same image. *)
Theorem artifact_names_distinct : NoDup (artifact_names image_id).
Proof.
  unfold artifact_names, _IMAGE_FORMAT, _SEMANTIC_PREDICTION_FORMAT,
    _SEMANTIC_LABEL_FORMAT, _CENTER_HEATMAP_PREDICTION_FORMAT,
    _CENTER_LABEL_FORMAT, _OFFSET_PREDICTION_RGB_FORMAT, _OFFSET_LABEL_FORMAT,
    _INSTANCE_PREDICTION_FORMAT, _PANOPTIC_PREDICTION_FORMAT,
    _PANOPTIC_LABEL_FORMAT, _ANALYSIS_FORMAT.
  repeat (apply NoDup_cons; split;
          [rewrite ?not_elem_of_cons;
           repeat split; try apply not_elem_of_nil;
           try (intros Heq%string_app_inj; discriminate)|]).
  apply NoDup_nil_2.
Qed.

(** X17. [store_predictions] only writes images: it creates no directory and
    saves no numpy file, however it ends. *)
Theorem store_predictions_only_writes_images :
  Forall (fun ev => is_image_write ev = true) (trace run).
Proof.
  unfold run, store_predictions. image_writes.
  destruct (predictions !! TARGET_PANOPTIC_KEY); [|apply Forall_nil_2].
  unfold store_panoptic_predictions. image_writes.
Qed.

(** X18. Without a panoptic prediction, and with the image, the semantic
    prediction and a raw ground truth of the same shape in the bundles, the
    call returns after writing exactly four images, in this order: the input
    image, the colormapped semantic prediction, the colormapped ground truth
    and the error mask. *)
Theorem store_predictions_semantic_only image sem gt :
  predictions !! TARGET_PANOPTIC_KEY = None ->
  inputs !! IMAGE = Some image ->
  predictions !! TARGET_SEMANTIC_KEY = Some (Arr2 sem) ->
  inputs !! GT_SEMANTIC_RAW = Some (Arr2 gt) ->
  same_shape sem gt ->
  exists err,
    error_prediction sem gt (ignore_label dataset_info) = Returns err /\
    run
    = ([save_annotation image save_dir (_IMAGE_FORMAT image_id) false None;
        save_annotation (Arr2 sem) save_dir
          (_SEMANTIC_PREDICTION_FORMAT image_id) true colormap_name;
        save_annotation (Arr2 gt) save_dir (_SEMANTIC_LABEL_FORMAT image_id)
          true colormap_name;
        save_annotation (Arr2 err) save_dir (_ANALYSIS_FORMAT image_id) false
          None],
       Returns tt).
Proof.
  intros Hpan Himage Hsem Hgt Hshape. eexists.
  split; [by apply error_prediction_same_shape|].
  unfold run, store_predictions, dict_getitem.
  rewrite Hpan, Himage, Hsem, Hgt. cbn [obind label_map].
  repeat (rewrite ?bind_Returns, ?bind_emit, ?bind_ret).
  rewrite error_prediction_same_shape by done.
  by rewrite bind_Returns.
Qed.

(** X19. A missing entry ends the call with [KeyError] at the step that reads
    it, and what the earlier steps wrote stays written: nothing without the
    image, the image alone without the semantic prediction, and image and
    semantic prediction without the raw ground truth. *)
Theorem store_predictions_missing_key :
  (inputs !! IMAGE = None -> run = ([], Raises (KeyError IMAGE))) /\
  (forall image,
      inputs !! IMAGE = Some image ->
      predictions !! TARGET_SEMANTIC_KEY = None ->
      run
      = ([save_annotation image save_dir (_IMAGE_FORMAT image_id) false None],
         Raises (KeyError TARGET_SEMANTIC_KEY))) /\
  (forall image sem,
      inputs !! IMAGE = Some image ->
      predictions !! TARGET_SEMANTIC_KEY = Some sem ->
      inputs !! GT_SEMANTIC_RAW = None ->
      run
      = ([save_annotation image save_dir (_IMAGE_FORMAT image_id) false None;
          save_annotation sem save_dir (_SEMANTIC_PREDICTION_FORMAT image_id)
            true colormap_name],
         Raises (KeyError GT_SEMANTIC_RAW))).
Proof.
  unfold run, store_predictions, dict_getitem. split; [|split].
  - by intros ->.
  - by intros image -> ->.
  - by intros image sem -> -> ->.
Qed.

End StorePredictionsMore.

Section StorePredictionsPanoptic.
Context `{Common} `{OsPath} `{VisUtils}.

Variables (predictions inputs : gmap string ndarray) (image_id : Z)
  (dataset_info : DatasetDescriptor) (save_dir : string).

Let run : io unit :=
  store_predictions predictions inputs image_id dataset_info save_dir.
Let colormap_name := Some (colormap dataset_info).
Let thing_list := class_has_instances_list dataset_info.

Lemma masked_offset_rgb_same_shape (center_offset : array3)
  (label_map : array2) (things : list Z) :
  same_shape (flow_to_color center_offset) label_map ->
  masked_offset_rgb center_offset label_map things
  = Returns
      (zip_with
         (zip_with (fun px x =>
                      map (fun v =>
                             v * (if bool_decide (x ∈ things) then 1 else 0))
                        px))
         (flow_to_color center_offset) label_map).
Proof.
  intros Hshape. unfold masked_offset_rgb. rewrite get_fg_mask_map2.
  by rewrite (np_multiply_mask _ _
                (fun x => if bool_decide (x ∈ things) then 1 else 0)).
Qed.

(** X20. With a panoptic prediction and every entry the steps read in the
    bundles, offset fields whose flow images have the shape of the label maps
    they are masked with, and a raw ground truth of the shape of the semantic
    prediction, the call returns after writing exactly eleven images in the
    order of the steps 1 to 7, the masked offset images being those of
    [masked_offset_rgb] and the last one the error mask. *)
Theorem store_predictions_panoptic image sem gt pan heat off inst center reg
  gts panraw :
  predictions !! TARGET_PANOPTIC_KEY = Some pan ->
  predictions !! TARGET_CENTER_HEATMAP_KEY = Some heat ->
  predictions !! TARGET_OFFSET_MAP_KEY = Some (Arr3 off) ->
  predictions !! TARGET_SEMANTIC_KEY = Some (Arr2 sem) ->
  predictions !! TARGET_INSTANCE_KEY = Some inst ->
  inputs !! IMAGE = Some image ->
  inputs !! GT_SEMANTIC_RAW = Some (Arr2 gt) ->
  inputs !! GT_INSTANCE_CENTER_KEY = Some center ->
  inputs !! GT_INSTANCE_REGRESSION_KEY = Some (Arr3 reg) ->
  inputs !! GT_SEMANTIC_KEY = Some (Arr2 gts) ->
  inputs !! GT_PANOPTIC_RAW = Some panraw ->
  same_shape (flow_to_color (_crop_like off sem)) sem ->
  same_shape (flow_to_color reg) gts ->
  same_shape sem gt ->
  exists offset_rgb label_rgb err,
    masked_offset_rgb (_crop_like off sem) sem thing_list
    = Returns offset_rgb /\
    masked_offset_rgb reg gts thing_list = Returns label_rgb /\
    error_prediction sem gt (ignore_label dataset_info) = Returns err /\
    run
    = ([save_annotation image save_dir (_IMAGE_FORMAT image_id) false None;
        save_annotation (Arr2 sem) save_dir
          (_SEMANTIC_PREDICTION_FORMAT image_id) true colormap_name;
        save_annotation (Arr2 gt) save_dir (_SEMANTIC_LABEL_FORMAT image_id)
          true colormap_name;
        save_annotation (overlay_heatmap_on_image heat image) save_dir
          (_CENTER_HEATMAP_PREDICTION_FORMAT image_id) false None;
        save_annotation (overlay_heatmap_on_image center image) save_dir
          (_CENTER_LABEL_FORMAT image_id) false None;
        save_annotation (Arr3 offset_rgb) save_dir
          (_OFFSET_PREDICTION_RGB_FORMAT image_id) false None;
        save_annotation (Arr3 label_rgb) save_dir
          (_OFFSET_LABEL_FORMAT image_id) false None;
        save_annotation (create_rgb_from_instance_map inst) save_dir
          (_INSTANCE_PREDICTION_FORMAT image_id) false None;
        save_parsing_result pan (panoptic_label_divisor dataset_info)
          thing_list save_dir (_PANOPTIC_PREDICTION_FORMAT image_id)
          (colormap dataset_info);
        save_parsing_result panraw (panoptic_label_divisor dataset_info)
          thing_list save_dir (_PANOPTIC_LABEL_FORMAT image_id)
          (colormap dataset_info);
        save_annotation (Arr2 err) save_dir (_ANALYSIS_FORMAT image_id) false
          None],
       Returns tt).
Proof.
  intros Hpan Hheat Hoff Hsem Hinst Himage Hgt Hcenter Hreg Hgts Hpanraw
    Hshape_off Hshape_reg Hshape.
  eexists _, _, _.
  split; [by apply masked_offset_rgb_same_shape|].
  split; [by apply masked_offset_rgb_same_shape|].
  split; [by apply error_prediction_same_shape|].
  unfold run, store_predictions, store_panoptic_predictions, dict_getitem.
  rewrite Hpan, Hheat, Hoff, Hsem, Hinst, Himage, Hgt, Hcenter, Hreg, Hgts,
    Hpanraw.
  cbn [obind label_map feature_map].
  repeat (rewrite ?bind_Returns, ?bind_emit, ?bind_ret).
  fold thing_list.
  rewrite (masked_offset_rgb_same_shape _ _ _ Hshape_off).
  repeat (rewrite ?bind_Returns, ?bind_emit, ?bind_ret).
  rewrite (masked_offset_rgb_same_shape _ _ _ Hshape_reg).
  repeat (rewrite ?bind_Returns, ?bind_emit, ?bind_ret).
  rewrite error_prediction_same_shape by done.
  repeat (rewrite ?bind_Returns, ?bind_emit, ?bind_ret).
  reflexivity.
Qed.

End StorePredictionsPanoptic.

Section ArtifactsWritten.
Context `{Common} `{OsPath}.

Variables (predictions : gmap string ndarray) (image_filename : string)
  (dataset_info : DatasetDescriptor) (save_dir sequence : string)
  (raw_panoptic_format : string) (convert_to_eval : bool).

Let run : io unit :=
  store_raw_predictions predictions image_filename dataset_info save_dir
    sequence raw_panoptic_format convert_to_eval.

Lemma store_raw_panoptic_Returns zeros sl il folder fname :
  result (store_raw_panoptic raw_panoptic_format zeros sl il folder fname)
  = Returns tt ->
  exists ev,
    trace (store_raw_panoptic raw_panoptic_format zeros sl il folder fname)
    = [ev] /\ is_artifact ev = true.
Proof.
  unfold store_raw_panoptic.
  destruct (String.eqb raw_panoptic_format "two_channel_png").
  { destruct (np_max sl) as [ms|e1]; [|done].
    rewrite bind_Returns. destruct (255 <? ms); [done|].
    destruct (np_max il) as [mi|e2]; [|done].
    rewrite bind_Returns. destruct (255 <? mi); [done|]. eauto. }
  destruct (String.eqb raw_panoptic_format "three_channel_png").
  { destruct (np_max sl) as [ms|e1]; [|done].
    rewrite bind_Returns. destruct (255 <? ms); [done|].
    destruct (np_max il) as [mi|e2]; [|done].
    rewrite bind_Returns. destruct (65535 <? mi); [done|]. eauto. }
  destruct (String.eqb raw_panoptic_format "two_channel_numpy_array");
    [eauto|done].
Qed.

(** X12. When the call returns it has written one file per prediction it
    stores: the raw semantic image, and one panoptic artifact exactly when the
    bundle has a panoptic prediction. *)
Theorem raw_artifacts_written :
  result run = Returns tt ->
  length (List.filter is_artifact (trace run))
  = match predictions !! TARGET_PANOPTIC_KEY with
    | Some _ => 2%nat
    | None => 1%nat
    end.
Proof.
  assert (Hsem : forall stored,
             List.filter is_artifact
               (raw_semantic_events dataset_info save_dir sequence
                  image_filename stored)
             = [save_annotation (Arr2 stored)
                  (output_folder dataset_info save_dir "raw_semantic"
                     sequence)
                  (splitext_root image_filename) false None]).
  { intros stored. unfold raw_semantic_events, output_folder_events.
    by destruct (is_video_dataset dataset_info). }
  unfold run. rewrite store_raw_predictions_stages.
  destruct (obind _ _) as [sem|e]; [|done].
  destruct (semantic_to_store _ _ _) as [stored|e]; [|done]. simpl.
  destruct (predictions !! TARGET_PANOPTIC_KEY) as [[pan|pan]|]; simpl;
    [|done|by rewrite Hsem].
  destruct (predicted_semantic_labels _ _ _) as [sl|e]; simpl; [|done].
  intros (ev & -> & Hev)%store_raw_panoptic_Returns.
  rewrite !List.filter_app, Hsem. simpl. rewrite Hev.
  unfold output_folder_events. by destruct (is_video_dataset dataset_info).
Qed.

End ArtifactsWritten.

(** ** Runs of the further properties *)

Section MoreRuns.
Local Existing Instances Sample.common Sample.os_path Sample.vis_utils.

Lemma missing_semantic_key_witness :
  (∅ : gmap string ndarray) !! TARGET_SEMANTIC_KEY = None /\
  store_raw_predictions ∅ "a" Sample.coco "out" "" "foo" true
  = ([], Raises (KeyError "semantic_pred")).
Proof.
  split; [reflexivity|].
  exact (missing_semantic_key ∅ "a" Sample.coco "out" "" "foo" true eq_refl).
Defined.

Lemma empty_panoptic_map_witness :
  let bundle :=
    <[TARGET_PANOPTIC_KEY := Arr2 [[]]]> Sample.semantic_only in
  bundle !! TARGET_SEMANTIC_KEY = Some (Arr2 [[11; 0]]) /\
  semantic_to_store false Sample.cityscapes [[11; 0]] = Returns [[11; 0]] /\
  bundle !! TARGET_PANOPTIC_KEY = Some (Arr2 [[]]) /\
  concat [[] : list Z] = [] /\
  result (store_raw_predictions bundle "a" Sample.cityscapes "out" ""
            "two_channel_png" false)
  = Raises ValueError_zero_size_reduction /\
  result (store_raw_predictions bundle "a" Sample.cityscapes "out" ""
            "two_channel_numpy_array" false)
  = Returns tt.
Proof.
  intros bundle. do 4 (split; [reflexivity|]).
  destruct (empty_panoptic_map bundle "a" Sample.cityscapes "out" "" false
              [[11; 0]] [[11; 0]] [[]]) as (Htwo & _ & Hnumpy);
    [reflexivity..|].
  split; [by rewrite Htwo | exact Hnumpy].
Defined.

Lemma eval_conversion_rejects_panoptic_ids_witness :
  let bundle :=
    <[TARGET_PANOPTIC_KEY := Arr2 [[256 * 1000 + 0]]]> Sample.semantic_only in
  bundle !! TARGET_SEMANTIC_KEY = Some (Arr2 [[11; 0]]) /\
  semantic_to_store true Sample.cityscapes [[11; 0]] = Returns [[24; 7]] /\
  bundle !! TARGET_PANOPTIC_KEY = Some (Arr2 [[256 * 1000 + 0]]) /\
  exists s,
    (s < -256 \/ 255 < s) /\
    store_raw_predictions bundle "a" Sample.cityscapes "out" ""
      "two_channel_numpy_array" true
    = ([save_annotation (Arr2 [[24; 7]]) "out/raw_semantic" "a" false None],
       Raises (IndexError s 256)).
Proof.
  intros bundle. do 3 (split; [reflexivity|]).
  destruct (eval_conversion_rejects_panoptic_ids bundle "a" Sample.cityscapes
              "out" "" "two_channel_numpy_array" [[11; 0]] [[24; 7]]
              [[256 * 1000 + 0]]) as (s & Hs & Hrun);
    [reflexivity | reflexivity | reflexivity
    | constructor; right; reflexivity |].
  exists s. split; [exact Hs|]. rewrite Hrun. reflexivity.
Defined.

Lemma decode_recombines_witness :
  pixel [[-7]] 0 0 = Some (-7) /\
  exists s i,
    pixel (map2 (fun x => np_floor_divide x 1000) [[-7]]) 0 0 = Some s /\
    pixel (predicted_instance_labels [[-7]] 1000) 0 0 = Some i /\
    s * 1000 + i = -7 /\ 0 <= i < 1000.
Proof.
  split; [reflexivity|].
  destruct (decode_recombines [[-7]] 1000 0 0 (-7) eq_refl)
    as (s & i & Hs & Hi & _ & Hpos & _).
  exists s, i. split; [exact Hs|]. split; [exact Hi|].
  exact (Hpos eq_refl).
Defined.

Lemma lossless_map_rectangular : rectangular [[11 * 100000 + 65535]].
Proof. repeat constructor. Defined.

Lemma three_channel_png_lossless_witness :
  let bundle :=
    <[TARGET_PANOPTIC_KEY := Arr2 [[11 * 100000 + 65535]]]>
      Sample.semantic_only in
  let run :=
    store_raw_predictions bundle "a" Sample.kitti_step "out" "0001"
      "three_channel_png" false in
  bundle !! TARGET_SEMANTIC_KEY = Some (Arr2 [[11; 0]]) /\
  semantic_to_store false Sample.kitti_step [[11; 0]] = Returns [[11; 0]] /\
  bundle !! TARGET_PANOPTIC_KEY = Some (Arr2 [[11 * 100000 + 65535]]) /\
  rectangular [[11 * 100000 + 65535]] /\
  predicted_semantic_labels false [[11 * 100000 + 65535]] 100000
  = Returns [[11]] /\
  0 < 100000 /\
  result run = Returns tt /\
  exists saved s hi lo,
    last (trace run)
    = Some (save_annotation (Arr3 saved) "out/raw_panoptic/0001" "a" false
              None) /\
    pixel saved 0 0 = Some [s; hi; lo] /\ hi * 256 + lo = 65535.
Proof.
  intros bundle run.
  do 3 (split; [reflexivity|]). split; [exact lossless_map_rectangular|].
  do 3 (split; [reflexivity|]).
  destruct (three_channel_png_lossless bundle "a" Sample.kitti_step "out"
              "0001" false [[11; 0]] [[11; 0]] [[11 * 100000 + 65535]]
              [[11]]) as (saved & Hlast & Hpx);
    [reflexivity | reflexivity | reflexivity | exact lossless_map_rectangular
    | reflexivity | reflexivity | reflexivity |].
  destruct (Hpx 0%nat 0%nat 65535 eq_refl) as (s & hi & lo & Hs & _ & _ & _ & Hsum).
  exists saved, s, hi, lo. split; [exact Hlast|]. split; [exact Hs|exact Hsum].
Defined.

Lemma png_channels_fit_8_bits_witness :
  let run :=
    store_raw_predictions Sample.predictions "a" Sample.cityscapes "out" ""
      "two_channel_png" false in
  Sample.predictions !! TARGET_SEMANTIC_KEY = Some (Arr2 [[11; 0]]) /\
  semantic_to_store false Sample.cityscapes [[11; 0]] = Returns [[11; 0]] /\
  Sample.predictions !! TARGET_PANOPTIC_KEY = Some (Arr2 [[11003; 0]]) /\
  rectangular [[11003; 0]] /\
  predicted_semantic_labels false [[11003; 0]] 1000 = Returns [[11; 0]] /\
  0 < 1000 /\
  Forall (fun x => 0 <= x) (concat [[11003; 0]]) /\
  result run = Returns tt /\
  exists saved,
    last (trace run)
    = Some (save_annotation (Arr3 saved) "out/raw_panoptic" "a" false None) /\
    Forall (Forall (Forall (fun v => 0 <= v <= 255))) saved.
Proof.
  intros run.
  assert (Hpos : Forall (fun x => 0 <= x) (concat [[11003; 0]]))
    by (simpl; repeat constructor; lia).
  do 3 (split; [reflexivity|]). split; [exact panoptic_map_rectangular|].
  do 2 (split; [reflexivity|]). split; [exact Hpos|].
  split; [reflexivity|].
  destruct (png_channels_fit_8_bits Sample.predictions "a" Sample.cityscapes
              "out" "" false false [[11; 0]] [[11; 0]] [[11003; 0]]
              [[11; 0]]) as (saved & Hlast & Hrange);
    [reflexivity | reflexivity | reflexivity | exact panoptic_map_rectangular
    | reflexivity | reflexivity | exact Hpos | reflexivity |].
  exists saved. split; [exact Hlast|exact Hrange].
Defined.

Lemma fg_mask_thing_set_witness :
  (forall class_id, class_id ∈ [11; 12] <-> class_id ∈ [12; 11; 11]) /\
  _get_fg_mask [[11; 0]] [11; 12] = _get_fg_mask [[11; 0]] [12; 11; 11].
Proof.
  assert (Hsame : forall class_id,
             class_id ∈ [11; 12] <-> class_id ∈ [12; 11; 11]).
  { intros class_id. rewrite !elem_of_cons, !elem_of_nil. tauto. }
  split; [exact Hsame|].
  exact (proj1 (fg_mask_thing_set [[11; 0]] [11; 12] [12; 11; 11] Hsame)).
Defined.

Lemma masked_offset_shape_mismatch_witness :
  length (flow_to_color [[[1; 2]]; [[3; 4]]]) <> length [[1]; [2]; [3]] /\
  length (flow_to_color [[[1; 2]]; [[3; 4]]]) <> 1%nat /\
  length [[1]; [2]; [3]] <> 1%nat /\
  masked_offset_rgb [[[1; 2]]; [[3; 4]]] [[1]; [2]; [3]] [1]
  = Raises ValueError_broadcast.
Proof.
  do 3 (split; [discriminate|]).
  apply masked_offset_shape_mismatch; discriminate.
Defined.

Lemma sample_flow_keeps_shape (flow : array3) :
  same_shape (flow_to_color flow) flow.
Proof.
  unfold same_shape. simpl. unfold map2.
  induction flow as [|row flow IH]; simpl; constructor; [|done].
  apply length_map.
Qed.

Lemma crop_then_mask_returns_witness :
  (forall flow : array3, same_shape (flow_to_color flow) flow) /\
  rectangular [[11; 0]] /\
  (length [[11; 0]] <= length [[[5; 6]; [7; 8]; [9; 9]]; [[1; 1]; [2; 2]; [3; 3]]])%nat /\
  exists masked,
    masked_offset_rgb
      (_crop_like [[[5; 6]; [7; 8]; [9; 9]]; [[1; 1]; [2; 2]; [3; 3]]]
         [[11; 0]])
      [[11; 0]] [11]
    = Returns masked /\
    same_shape masked [[11; 0]].
Proof.
  assert (Hrect : rectangular [[11; 0]]) by (repeat constructor).
  split; [exact sample_flow_keeps_shape|]. split; [exact Hrect|].
  split; [simpl; lia|].
  apply (crop_then_mask_returns
           [[[5; 6]; [7; 8]; [9; 9]]; [[1; 1]; [2; 2]; [3; 3]]] [[11; 0]] [11]
           sample_flow_keeps_shape Hrect).
  - simpl. lia.
  - repeat constructor; simpl; lia.
Defined.

Lemma store_predictions_semantic_only_witness :
  Sample.semantic_only !! TARGET_PANOPTIC_KEY = None /\
  Sample.inputs !! IMAGE = Some (Arr3 [[[1; 2; 3]; [4; 5; 6]]]) /\
  Sample.semantic_only !! TARGET_SEMANTIC_KEY = Some (Arr2 [[11; 0]]) /\
  Sample.inputs !! GT_SEMANTIC_RAW = Some (Arr2 [[12; 255]]) /\
  same_shape [[11; 0]] [[12; 255]] /\
  exists err,
    error_prediction [[11; 0]] [[12; 255]] 255 = Returns err /\
    store_predictions Sample.semantic_only Sample.inputs 7 Sample.cityscapes
      "out"
    = ([save_annotation (Arr3 [[[1; 2; 3]; [4; 5; 6]]]) "out" "000007_image"
          false None;
        save_annotation (Arr2 [[11; 0]]) "out" "000007_semantic_prediction"
          true (Some "cityscapes");
        save_annotation (Arr2 [[12; 255]]) "out" "000007_semantic_label" true
          (Some "cityscapes");
        save_annotation (Arr2 err) "out" "000007_semantic_error" false None],
       Returns tt).
Proof.
  assert (Hshape : same_shape [[11; 0]] [[12; 255]]) by (repeat constructor).
  do 4 (split; [reflexivity|]). split; [exact Hshape|].
  destruct (store_predictions_semantic_only Sample.semantic_only Sample.inputs
              7 Sample.cityscapes "out" (Arr3 [[[1; 2; 3]; [4; 5; 6]]])
              [[11; 0]] [[12; 255]]) as (err & Herr & Hrun);
    [reflexivity | reflexivity | reflexivity | reflexivity | exact Hshape |].
  exists err. split; [exact Herr|]. rewrite Hrun. reflexivity.
Defined.

Lemma store_predictions_panoptic_witness :
  same_shape (flow_to_color (_crop_like [[[5; 6]; [7; 8]]] [[11; 0]]))
    [[11; 0]] /\
  same_shape (flow_to_color [[[1; 1]; [2; 2]]]) [[12; 255]] /\
  same_shape [[11; 0]] [[12; 255]] /\
  result (store_predictions Sample.full_predictions Sample.full_inputs 7
            Sample.cityscapes "out") = Returns tt /\
  length (trace (store_predictions Sample.full_predictions Sample.full_inputs
                   7 Sample.cityscapes "out")) = 11%nat.
Proof.
  assert (H1 : same_shape
                 (flow_to_color (_crop_like [[[5; 6]; [7; 8]]] [[11; 0]]))
                 [[11; 0]]) by (repeat constructor).
  assert (H2 : same_shape (flow_to_color [[[1; 1]; [2; 2]]]) [[12; 255]])
    by (repeat constructor).
  assert (H3 : same_shape [[11; 0]] [[12; 255]]) by (repeat constructor).
  do 3 (split; [assumption|]).
  destruct (store_predictions_panoptic Sample.full_predictions
              Sample.full_inputs 7 Sample.cityscapes "out"
              (Arr3 [[[1; 2; 3]; [4; 5; 6]]]) [[11; 0]] [[12; 255]]
              (Arr2 [[11003; 0]]) (Arr3 [[[1]; [0]]]) [[[5; 6]; [7; 8]]]
              (Arr2 [[3; 0]]) (Arr3 [[[0]; [1]]]) [[[1; 1]; [2; 2]]]
              [[12; 255]] (Arr2 [[12001; 255000]]))
    as (offset_rgb & label_rgb & err & _ & _ & _ & Hrun);
    [reflexivity.. | exact H1 | exact H2 | exact H3 |].
  rewrite Hrun. split; reflexivity.
Defined.

Lemma raw_artifacts_written_witness :
  let run :=
    store_raw_predictions Sample.predictions "a" Sample.cityscapes "out" ""
      "two_channel_png" true in
  result run = Returns tt /\
  length (List.filter is_artifact (trace run)) = 2%nat.
Proof.
  intros run. split; [reflexivity|].
  exact (raw_artifacts_written Sample.predictions "a" Sample.cityscapes "out"
           "" "two_channel_png" true eq_refl).
Defined.

Lemma crop_like_pixels_witness :
  pixel (_crop_like [[1; 2; 3]; [4; 5; 6]; [7; 8; 9]] [[0; 0]]) 0 1 = Some 2 /\
  pixel (_crop_like [[1; 2; 3]; [4; 5; 6]; [7; 8; 9]] [[0; 0]]) 0 2 = None /\
  pixel (_crop_like [[1; 2; 3]; [4; 5; 6]; [7; 8; 9]] [[0; 0]]) 1 0 = None.
Proof.
  pose proof (proj1 (crop_like_pixels [[1; 2; 3]; [4; 5; 6]; [7; 8; 9]]
                       [[0; 0]])) as Hpx.
  pose proof (Hpx 0%nat 1%nat) as H01.
  pose proof (Hpx 0%nat 2%nat) as H02.
  pose proof (Hpx 1%nat 0%nat) as H10.
  exact (conj H01 (conj H02 H10)).
Defined.

Lemma convert_returns_iff_witness :
  Forall (fun v => -256 <= v <= 255) (concat [[-1; 255]; [-256; 19]]) /\
  _convert_cityscapes_train_id_to_eval_id [[-1; 255]; [-256; 19]]
  = Returns [[0; 0]; [7; 0]] /\
  exists v,
    v ∈ concat [[3; 256]] /\ (v < -256 \/ 255 < v) /\
    IndexError 256 256 = IndexError v 256.
Proof.
  assert (Hin : Forall (fun v => -256 <= v <= 255)
                  (concat [[-1; 255]; [-256; 19]]))
    by (simpl; repeat constructor; lia).
  split; [exact Hin|]. split.
  - destruct (convert_returns_iff [[-1; 255]; [-256; 19]])
      as (_ & Hvalue & _).
    rewrite (Hvalue Hin). reflexivity.
  - destruct (convert_returns_iff [[3; 256]]) as (_ & _ & _ & Hraise).
    exact (Hraise (IndexError 256 256) eq_refl).
Defined.

Lemma eval_ids_never_overflow_semantic_witness :
  result (store_raw_predictions
            (<[TARGET_PANOPTIC_KEY := Arr2 [[255 * 1000 + 7]]]>
               Sample.semantic_only)
            "a" Sample.cityscapes "out" "" "two_channel_png" true)
  <> Raises ValueError_overflow_semantic.
Proof.
  exact (eval_ids_never_overflow_semantic
           (<[TARGET_PANOPTIC_KEY := Arr2 [[255 * 1000 + 7]]]>
              Sample.semantic_only)
           "a" Sample.cityscapes "out" "" "two_channel_png").
Defined.

Lemma directories_only_for_video_witness :
  is_video_dataset Sample.cityscapes = false /\
  Forall (fun ev => is_artifact ev = true)
    (trace (store_raw_predictions Sample.predictions "a" Sample.cityscapes
              "out" "" "two_channel_png" false)) /\
  is_video_dataset Sample.kitti_step = true /\
  exists rest,
    trace (store_raw_predictions Sample.predictions "a" Sample.kitti_step
             "out" "0001" "two_channel_png" false)
    = makedirs "out/raw_semantic/0001"
        :: save_annotation (Arr2 [[11; 0]]) "out/raw_semantic/0001" "a" false
             None
        :: rest.
Proof.
  split; [reflexivity|]. split.
  - exact (proj1 (directories_only_for_video Sample.predictions "a"
                    Sample.cityscapes "out" "" "two_channel_png" false)
             eq_refl).
  - split; [reflexivity|].
    destruct (directories_only_for_video Sample.predictions "a"
                Sample.kitti_step "out" "0001" "two_channel_png" false)
      as [_ Hvideo].
    destruct (Hvideo eq_refl [[11; 0]] [[11; 0]]) as [rest Hrest];
      [reflexivity | reflexivity |].
    exists rest. exact Hrest.
Defined.

Lemma formats_accept_more_witness :
  result (store_raw_predictions Sample.predictions "a" Sample.cityscapes
            "out" "" "two_channel_png" false) = Returns tt /\
  result (store_raw_predictions Sample.predictions "a" Sample.cityscapes
            "out" "" "three_channel_png" false) = Returns tt /\
  result (store_raw_predictions Sample.predictions "a" Sample.cityscapes
            "out" "" "two_channel_numpy_array" false) = Returns tt.
Proof.
  destruct (formats_accept_more Sample.predictions "a" Sample.cityscapes
              "out" "" false) as [Htwo Hthree].
  split; [reflexivity|].
  split; [apply Htwo; reflexivity|].
  apply Hthree, Htwo. reflexivity.
Defined.

Lemma store_predictions_missing_key_witness :
  (∅ : gmap string ndarray) !! IMAGE = None /\
  store_predictions Sample.semantic_only ∅ 7 Sample.cityscapes "out"
  = ([], Raises (KeyError "image")).
Proof.
  split; [reflexivity|].
  exact (proj1 (store_predictions_missing_key Sample.semantic_only ∅ 7
                  Sample.cityscapes "out") eq_refl).
Defined.

End MoreRuns.

(** ** The png formats, on the ids of the pixels *)




Section PngFormats.
Context `{Common} `{OsPath}.

Variables (predictions : gmap string ndarray) (image_filename : string)
  (dataset_info : DatasetDescriptor) (save_dir sequence : string)
  (convert_to_eval : bool).

Let divisor := panoptic_label_divisor dataset_info.
Let run (raw_panoptic_format : string) : io unit :=
  store_raw_predictions predictions image_filename dataset_info save_dir
    sequence raw_panoptic_format convert_to_eval.
Let panoptic_folder :=
  output_folder dataset_info save_dir "raw_panoptic" sequence.
Let semantic_events (stored : array2) : list event :=
  raw_semantic_events dataset_info save_dir sequence image_filename stored.





End PngFormats.

Section PngRuns.
Local Existing Instances Sample.common Sample.os_path Sample.vis_utils.






(** The claim C8 fails on a ground-truth label above 255: line 328 narrows
    268 to 12, so the prediction 12, which differs from the label 268, is
    saved as no error, and the prediction 268, which is the label, is saved as
    an error. *)
Lemma semantic_error_mask_narrowed_label :
  let inputs : gmap string ndarray :=
    <[GT_SEMANTIC_RAW := Arr2 [[268; 268]]]>
      (<[IMAGE := Arr3 [[[0; 0; 0]; [0; 0; 0]]]]> ∅) in
  let predictions : gmap string ndarray :=
    <[TARGET_SEMANTIC_KEY := Arr2 [[12; 268]]]> ∅ in
  let run := store_predictions predictions inputs 7 Sample.cityscapes "out" in
  12 <> 268 /\ 268 <> ignore_label Sample.cityscapes /\
  result run = Returns tt /\
  last (trace run)
  = Some (save_annotation (Arr2 [[0; 255]]) "out" "000007_semantic_error"
            false None).
Proof.
  intros inputs predictions run.
  split; [discriminate|]. split; [discriminate|].
  split; vm_compute; reflexivity.
Qed.

End PngRuns.
